(** * PyPOTS, [pypots/imputation/csdi/data.py]: the CSDI sample assembler

    A shallow embedding of [DatasetForCSDI._fetch_data_from_array] and
    [DatasetForCSDI._fetch_data_from_file], with the properties of the
    samples they build.

    The two methods are thin plumbing around three collaborators:
    - torch / numpy / h5py arrays, modelled in [Module Torch] as a dtype, a
      shape and row-major data (IEEE-754 values through [SpecFloat], 64-bit
      integers as [Z] with the wrap-around written out);
    - pygrinder's [mcar], the randomised masker, taken as a parameter that
      threads the state of the random generator;
    - [BaseDataset], which owns the attributes the methods read
      ([X], [y], [data], [n_steps], [return_labels], [file_handle]). *)

From Stdlib Require Import ZArith Bool Lia.
From Stdlib Require Import Floats.SpecFloat.
From stdpp Require Import base option list gmap strings.

Local Open Scope Z_scope.

(** ** Python exceptions and results

    [Crash] is not an exception: it stands for the interpreter dying inside
    a library call, which returns nothing either. *)

Inductive pyerr : Type :=
  | IndexError
  | KeyError
  | TypeError
  | AttributeError
  | RuntimeError
  | OSError
  | Crash.

Inductive result (A : Type) : Type :=
  | Ok (a : A)
  | Raise (e : pyerr).
Arguments Ok {A} a.
Arguments Raise {A} e.

Definition result_bind {A B} (r : result A) (k : A -> result B) : result B :=
  match r with
  | Ok a => k a
  | Raise e => Raise e
  end.

(** ** Arrays: torch tensors, numpy arrays and h5py datasets *)

Module Torch.

Inductive dtype : Type := float32 | float64 | int64.

Definition dtype_eqb (a b : dtype) : bool :=
  match a, b with
  | float32, float32 | float64, float64 | int64, int64 => true
  | _, _ => false
  end.

Definition is_floating (d : dtype) : bool :=
  match d with int64 => false | _ => true end.

(** One element of an array: an IEEE-754 value or an integer. *)
Inductive scalar : Type :=
  | F (x : spec_float)
  | I (z : Z).

(** [t_shape] is the shape, [t_data] the elements in row-major order.  A
    0-dimensional array (shape [[]]) holds one element; this is also how
    a numpy scalar, the result of indexing a 1-dimensional numpy array or
    h5py dataset with an integer, is represented. *)
Record tensor : Type := Tensor {
  t_dtype : dtype;
  t_shape : list nat;
  t_data : list scalar
}.

Definition numel (s : list nat) : nat := foldr Nat.mul 1%nat s.

(** *** Element conversions *)

Definition prec_of (d : dtype) : Z :=
  match d with float32 => 24 | _ => 53 end.
Definition emax_of (d : dtype) : Z :=
  match d with float32 => 128 | _ => 1024 end.

(** Round an IEEE value to the format [(prec, emax)], to nearest even. *)
Definition round_float (prec emax : Z) (x : spec_float) : spec_float :=
  match x with
  | S754_finite s m e => binary_normalize prec emax (cond_Zopp s (Zpos m)) e s
  | _ => x
  end.

Definition float_of_Z (prec emax : Z) (z : Z) : spec_float :=
  binary_normalize prec emax z 0 false.

Definition int64_min : Z := - 2 ^ 63.
Definition int64_max : Z := 2 ^ 63 - 1.

(** Two's complement wrap-around of 64-bit integer arithmetic. *)
Definition wrap64 (z : Z) : Z := (z + 2 ^ 63) mod 2 ^ 64 - 2 ^ 63.

(** Float to integer: truncation toward zero.  NaN, infinities and values
    out of range have no defined result in C; the x86-64 conversion
    returns the smallest integer, which is what is written here. *)
Definition trunc_float (x : spec_float) : Z :=
  match x with
  | S754_zero _ => 0
  | S754_finite s m e =>
      let a := if 0 <=? e then Zpos m * 2 ^ e else Zpos m / 2 ^ (- e) in
      let z := cond_Zopp s a in
      if (int64_min <=? z) && (z <=? int64_max) then z else int64_min
  | _ => int64_min
  end.

Definition cast_scalar (d : dtype) (v : scalar) : scalar :=
  match d, v with
  | int64, F x => I (trunc_float x)
  | int64, I z => I (wrap64 z)
  | _, F x => F (round_float (prec_of d) (emax_of d) x)
  | _, I z => F (float_of_Z (prec_of d) (emax_of d) z)
  end.

(** [t.to(d)]: the tensor itself when it already has dtype [d]. *)
Definition to (d : dtype) (t : tensor) : tensor :=
  if dtype_eqb (t_dtype t) d then t
  else Tensor d (t_shape t) (cast_scalar d <$> t_data t).

(** [t.long()] *)
Definition long (t : tensor) : tensor := to int64 t.

(** *** Constructors *)

Definition f32_of_nat (i : nat) : scalar :=
  F (float_of_Z 24 128 (Z.of_nat i)).

(** [torch.arange(0, n, dtype=torch.float32)] *)
Definition arange (n : nat) : tensor :=
  Tensor float32 [n] (f32_of_nat <$> seq 0 n).

(** [torch.zeros(n)]: default dtype float32. *)
Definition zeros (n : nat) : tensor :=
  Tensor float32 [n] (replicate n (F (S754_zero false))).

(** [torch.tensor(i)] for a Python int [i]: a 0-dimensional int64 tensor
    ([RuntimeError] on overflow). *)
Definition tensor_of_int (i : Z) : result tensor :=
  if (int64_min <=? i) && (i <=? int64_max)
  then Ok (Tensor int64 [] [I i])
  else Raise RuntimeError.

(** [torch.from_numpy(a)]: [TypeError] unless [a] is an [ndarray]; a numpy
    scalar is not one. *)
Definition from_numpy (a : tensor) : result tensor :=
  match t_shape a with
  | [] => Raise TypeError
  | _ => Ok a
  end.

(** The integer a finite float truncates to, without bound. *)
Definition float_to_Z (x : spec_float) : Z :=
  match x with
  | S754_finite s m e =>
      cond_Zopp s (if 0 <=? e then Zpos m * 2 ^ e else Zpos m / 2 ^ (- e))
  | _ => 0
  end.

(** The check torch makes before it stores a Python float as int64: NaN,
    infinities and values below [- 2 ^ 63] or above [2 ^ 63] overflow. *)
Definition overflows_int64 (x : spec_float) : bool :=
  match x with
  | S754_zero _ => false
  | S754_finite _ _ _ =>
      (float_to_Z x <? - 2 ^ 63) || (2 ^ 63 <? float_to_Z x)
  | _ => true
  end.

(** [torch.tensor(a, dtype=torch.long)] for numpy data [a].  An array is
    converted and cast.  A numpy scalar is read as a Python number: an
    integer as it is, a float64 (a Python float) through the overflow
    check; a float32 scalar is neither and raises [TypeError]. *)
Definition tensor_long (a : tensor) : result tensor :=
  match t_shape a, t_dtype a, t_data a with
  | [], float32, _ => Raise TypeError
  | [], float64, [F x] =>
      if overflows_int64 x then Raise RuntimeError else Ok (to int64 a)
  | _, _, _ => Ok (to int64 a)
  end.

(** *** Indexing and length *)

Definition slice (i n : nat) (v : list scalar) : list scalar :=
  take n (drop (i * n) v).

(** The size of the first dimension. *)
Definition n_rows (t : tensor) : nat :=
  match t_shape t with
  | d :: _ => d
  | [] => 0%nat
  end.

(** [t[idx]] for an integer [idx] on a numpy array or an h5py dataset:
    selects along the first dimension, negative indices counting from the
    end. *)
Definition getitem (t : tensor) (idx : Z) : result tensor :=
  match t_shape t with
  | [] => Raise IndexError
  | d :: s =>
      if (- Z.of_nat d <=? idx) && (idx <? Z.of_nat d)
      then Ok (Tensor (t_dtype t) s
                 (slice (Z.to_nat (idx mod Z.of_nat d)) (numel s) (t_data t)))
      else Raise IndexError
  end.

(** [t[idx]] for a torch tensor [t]: the index is first unpacked into 64
    bits, which raises [RuntimeError] when it does not fit.  At [- 2 ^ 63]
    the bounds check of torch, which negates the index, lets it through and
    the selection crashes.  (The sizes of a tensor are themselves 64-bit:
    this is said of the tensors that can exist.) *)
Definition tensor_getitem (t : tensor) (idx : Z) : result tensor :=
  if negb ((int64_min <=? idx) && (idx <=? int64_max))
  then Raise RuntimeError
  else if (idx =? int64_min) && (Z.of_nat (n_rows t) <=? int64_max)
  then Raise Crash
  else getitem t idx.

(** [len(t)] *)
Definition len (t : tensor) : result nat :=
  match t_shape t with
  | [] => Raise TypeError
  | d :: _ => Ok d
  end.

(** *** Addition, with type promotion and broadcasting *)

Definition result_type (a b : tensor) : dtype :=
  match t_dtype a, t_dtype b with
  | int64, d | d, int64 => d
  | float32, float32 => float32
  | float64, float64 => float64
  | float32, float64 =>
      match t_shape a, t_shape b with
      | _ :: _, [] => float32
      | _, _ => float64
      end
  | float64, float32 =>
      match t_shape a, t_shape b with
      | [], _ :: _ => float32
      | _, _ => float64
      end
  end.

Definition add_scalar (d : dtype) (u v : scalar) : scalar :=
  match cast_scalar d u, cast_scalar d v with
  | I a, I b => I (wrap64 (a + b))
  | F a, F b => F (SFadd (prec_of d) (emax_of d) a b)
  | F a, I _ => F a
  | I a, F _ => I a
  end.

(** Shapes are aligned on their last dimension; a missing dimension and a
    dimension of size 1 are stretched.  The arguments are the reversed
    shapes. *)
Fixpoint broadcast_rev (ra rb : list nat) : option (list nat) :=
  match ra, rb with
  | [], r | r, [] => Some r
  | a :: ra', b :: rb' =>
      r ← broadcast_rev ra' rb';
      if (a =? b)%nat then Some (a :: r)
      else if (a =? 1)%nat then Some (b :: r)
      else if (b =? 1)%nat then Some (a :: r)
      else None
  end.

Definition broadcast_shapes (sa sb : list nat) : option (list nat) :=
  reverse <$> broadcast_rev (reverse sa) (reverse sb).

Definition pad_shape (k : nat) (s : list nat) : list nat :=
  replicate (k - length s) 1%nat ++ s.

(** The elements of the broadcast result, by recursion on the output shape
    [o]; [sa] and [sb] are the operand shapes padded to the length of
    [o]. *)
Fixpoint broadcast_data (f : scalar -> scalar -> scalar)
    (o sa sb : list nat) (va vb : list scalar) : list scalar :=
  match o, sa, sb with
  | d :: o', a :: sa', b :: sb' =>
      flat_map (fun i =>
        broadcast_data f o' sa' sb'
          (slice (if (a =? 1)%nat then 0 else i) (numel sa') va)
          (slice (if (b =? 1)%nat then 0 else i) (numel sb') vb))
        (seq 0 d)
  | _, _, _ =>
      match va, vb with
      | x :: _, y :: _ => [f x y]
      | _, _ => []
      end
  end.

(** [a + b]; shapes that cannot be broadcast raise [RuntimeError]. *)
Definition add (a b : tensor) : result tensor :=
  match broadcast_shapes (t_shape a) (t_shape b) with
  | None => Raise RuntimeError
  | Some o =>
      let d := result_type a b in
      let k := length o in
      Ok (Tensor d o
            (broadcast_data (add_scalar d) o
               (pad_shape k (t_shape a)) (pad_shape k (t_shape b))
               (t_data a) (t_data b)))
  end.

End Torch.

Import Torch.

(** ** The dataset object and the world it lives in *)

(** An open h5py file: its path and the datasets it holds, by key. *)
Record h5file : Type := H5File {
  h5_path : string;
  h5_items : gmap string tensor
}.

(** [self.data] is [Union[dict, str]]: the arrays themselves, or the path of
    the file that holds them. *)
Inductive data_source : Type :=
  | DataDict (d : gmap string tensor)
  | DataPath (p : string).

(** The attributes of a [DatasetForCSDI] the two methods read.
    [BaseDataset.__init__] assigns [X] and [y] only for in-memory data
    ([X = None] stands for the attribute not being there, [y = None] for
    Python's [None]) and [file_handle] only for file-backed data, where it
    starts as [None]. *)
Record DatasetForCSDI : Type := Dataset {
  data : data_source;
  return_labels : bool;
  rate : spec_float;
  X : option tensor;
  y : option tensor;
  n_steps : nat;
  file_handle : option h5file
}.

Definition set_file_handle (h : h5file) (ds : DatasetForCSDI) : DatasetForCSDI :=
  Dataset (data ds) (return_labels ds) (rate ds) (X ds) (y ds) (n_steps ds)
    (Some h).

(** Number of samples of a data array: the size of its first dimension. *)
Definition n_samples (t : tensor) : nat :=
  match t_shape t with
  | d :: _ => d
  | [] => 0%nat
  end.

Section CSDI.

(** The state of the random generator [mcar] draws from. *)
Variable rng : Type.

(** pygrinder's [mcar(X, p)]: returns [X_intact], the artificially masked
    [X], [missing_mask] and [indicating_mask], and advances the random
    generator. *)
Variable mcar :
  tensor -> spec_float -> rng -> (tensor * tensor * tensor * tensor) * rng.

(** The file system as [h5py.File(path, "r")] sees it. *)
Variable open_file : string -> result h5file.

(** What a method call can read and change: the object and the random
    generator. *)
Record world : Type := World {
  self : DatasetForCSDI;
  rnd : rng
}.

(** Computations that read and update the world and may raise. *)
Definition M (A : Type) : Type := world -> result A * world.

Definition ret {A} (a : A) : M A := fun w => (Ok a, w).

Definition bind {A B} (m : M A) (k : A -> M B) : M B :=
  fun w =>
    match m w with
    | (Ok a, w') => k a w'
    | (Raise e, w') => (Raise e, w')
    end.

Definition lift {A} (r : result A) : M A := fun w => (r, w).

Definition attr {A} (f : DatasetForCSDI -> A) : M A :=
  fun w => (Ok (f (self w)), w).

Notation "x <- m ;; k" := (bind m (fun x => k))
  (at level 100, m at level 99, k at level 200, right associativity).
Notation "m ;;; k" := (bind m (fun _ => k))
  (at level 100, k at level 200, right associativity).

(** [self.X]. *)
Definition attr_X : M tensor :=
  fun w =>
    match X (self w) with
    | Some t => (Ok t, w)
    | None => (Raise AttributeError, w)
    end.

(** [self.data.keys()] and [self.data[...]]: [self.data] must be the dict. *)
Definition data_dict : M (gmap string tensor) :=
  fun w =>
    match data (self w) with
    | DataDict d => (Ok d, w)
    | DataPath _ => (Raise AttributeError, w)
    end.

(** [mcar(X, p=self.rate)]. *)
Definition call_mcar (x : tensor) : M (tensor * tensor * tensor * tensor) :=
  fun w =>
    let '(r, g) := mcar x (rate (self w)) (rnd w) in
    (Ok r, World (self w) g).

(** [src[key]] on a dict or an open file. *)
Definition subscript (src : gmap string tensor) (key : string) : result tensor :=
  match src !! key with
  | Some a => Ok a
  | None => Raise KeyError
  end.

(** [key in src.keys()]. *)
Definition has_key (src : gmap string tensor) (key : string) : bool :=
  bool_decide (is_Some (src !! key)).

(** [torch.from_numpy(src[key][idx]).to(torch.float32)]. *)
Definition load_float32 (src : gmap string tensor) (key : string) (idx : Z)
  : result tensor :=
  result_bind (subscript src key) (fun a =>
  result_bind (getitem a idx) (fun row =>
  result_bind (from_numpy row) (fun t =>
  Ok (to float32 t)))).

(** [torch.zeros(len(t)).long()]. *)
Definition zeros_long (t : tensor) : result tensor :=
  result_bind (len t) (fun n => Ok (long (zeros n))).

(** *** [_fetch_data_from_array] *)

Definition _fetch_data_from_array (idx : Z) : M (list tensor) :=
  X0 <- attr_X ;;
  Xi <- lift (tensor_getitem X0 idx) ;;
  let X := to float32 Xi in
  masked <- call_mcar X ;;
  let '(X_intact, X, missing_mask, indicating_mask) := masked in

  let observed_data := X_intact in
  observed_mask <- lift (add missing_mask indicating_mask) ;;
  let gt_mask := missing_mask in
  observed_tp <- (
    d <- data_dict ;;
    if negb (has_key d "time_points")
    then n <- attr n_steps ;; ret (arange n)
    else lift (load_float32 d "time_points" idx)) ;;
  for_pattern_mask <- (
    d <- data_dict ;;
    if negb (has_key d "for_pattern_mask")
    then ret gt_mask
    else lift (load_float32 d "for_pattern_mask" idx)) ;;
  cut_length <- (
    d <- data_dict ;;
    if negb (has_key d "cut_length")
    then lift (zeros_long observed_data)
    else lift (load_float32 d "cut_length" idx)) ;;

  index <- lift (tensor_of_int idx) ;;
  let sample :=
    [ index;
      observed_data;
      observed_mask;
      observed_tp;
      gt_mask;
      for_pattern_mask;
      cut_length ] in

  labels <- attr y ;;
  want <- attr return_labels ;;
  match labels with
  | Some y0 =>
      if want
      then yi <- lift (tensor_getitem y0 idx) ;; ret (sample ++ [to int64 yi])
      else ret sample
  | None => ret sample
  end.

(** *** [_fetch_data_from_file] *)

(** Modelled from the spec: [BaseDataset._open_file_handle] is not in this
    file.  "Lazy file-handle mode opens a file handle on first access": it
    opens the file whose path is [self.data]. *)
Definition _open_file_handle : M h5file :=
  fun w =>
    match data (self w) with
    | DataPath p => (open_file p, w)
    | DataDict _ => (Raise TypeError, w)
    end.

(** [self.file_handle = h]. *)
Definition assign_file_handle (h : h5file) : M unit :=
  fun w => (Ok tt, World (set_file_handle h (self w)) (rnd w)).

(** [self.file_handle[...]] and [self.file_handle.keys()]: the handle must
    not be [None]. *)
Definition the_file : M (gmap string tensor) :=
  fun w =>
    match file_handle (self w) with
    | Some h => (Ok (h5_items h), w)
    | None => (Raise TypeError, w)
    end.

Definition _fetch_data_from_file (idx : Z) : M (list tensor) :=
  fh <- attr file_handle ;;
  (match fh with
   | None => h <- _open_file_handle ;; assign_file_handle h
   | Some _ => ret tt
   end) ;;;

  f <- the_file ;;
  X0 <- lift (subscript f "X") ;;
  Xi <- lift (getitem X0 idx) ;;
  X1 <- lift (from_numpy Xi) ;;
  let X := to float32 X1 in
  masked <- call_mcar X ;;
  let '(X_intact, X, missing_mask, indicating_mask) := masked in

  let observed_data := X_intact in
  observed_mask <- lift (add missing_mask indicating_mask) ;;
  let gt_mask := indicating_mask in
  observed_tp <- (
    f <- the_file ;;
    if negb (has_key f "time_points")
    then n <- attr n_steps ;; ret (arange n)
    else lift (load_float32 f "time_points" idx)) ;;
  for_pattern_mask <- (
    f <- the_file ;;
    if negb (has_key f "for_pattern_mask")
    then ret gt_mask
    else lift (load_float32 f "for_pattern_mask" idx)) ;;
  cut_length <- (
    f <- the_file ;;
    if negb (has_key f "cut_length")
    then lift (zeros_long observed_data)
    else lift (load_float32 f "cut_length" idx)) ;;

  index <- lift (tensor_of_int idx) ;;
  let sample :=
    [ index;
      observed_data;
      observed_mask;
      observed_tp;
      gt_mask;
      for_pattern_mask;
      cut_length ] in

  f <- the_file ;;
  want <- (if has_key f "y" then attr return_labels else ret false) ;;
  if want
  then
    y0 <- lift (subscript f "y") ;;
    yi <- lift (getitem y0 idx) ;;
    label <- lift (tensor_long yi) ;;
    ret (sample ++ [label])
  else ret sample.

End CSDI.

Arguments World {rng} self rnd.
Arguments self {rng} w.
Arguments rnd {rng} w.

(** ** Vocabulary of the properties *)

(** The four results of the masker, by name. *)
Definition X_intact_of (r : tensor * tensor * tensor * tensor) : tensor :=
  r.1.1.1.
Definition X_masked_of (r : tensor * tensor * tensor * tensor) : tensor :=
  r.1.1.2.
Definition missing_mask_of (r : tensor * tensor * tensor * tensor) : tensor :=
  r.1.2.
Definition indicating_mask_of (r : tensor * tensor * tensor * tensor) : tensor :=
  r.2.

(** The positions of a sample. *)
Definition pos_index : nat := 0.
Definition pos_observed_data : nat := 1.
Definition pos_observed_mask : nat := 2.
Definition pos_time_points : nat := 3.
Definition pos_gt_mask : nat := 4.
Definition pos_for_pattern_mask : nat := 5.
Definition pos_cut_length : nat := 6.

(** [idx] is a valid sample index of the data array [x]. *)
Definition in_range (x : tensor) (idx : Z) : Prop :=
  0 <= idx < Z.of_nat (n_samples x).

(** An optional field of the source: [default] when [key] is absent, the
    row [idx] of the field as float32 otherwise. *)
Definition optional_field (src : gmap string tensor) (key : string) (idx : Z)
    (default : result tensor) : result tensor :=
  if negb (has_key src key) then default else load_float32 src key idx.

(** The label part of a sample, in-memory and file-backed. *)
Definition array_label (ds : DatasetForCSDI) (idx : Z) : result (list tensor) :=
  match y ds with
  | Some y0 =>
      if return_labels ds
      then result_bind (tensor_getitem y0 idx) (fun yi => Ok [to int64 yi])
      else Ok []
  | None => Ok []
  end.

Definition file_label (f : gmap string tensor) (ds : DatasetForCSDI) (idx : Z)
    : result (list tensor) :=
  if has_key f "y" && return_labels ds
  then result_bind (subscript f "y") (fun y0 =>
       result_bind (getitem y0 idx) (fun yi =>
       result_bind (tensor_long yi) (fun label => Ok [label])))
  else Ok [].

(** The array holds as many elements as its shape says. *)
Definition well_shaped (t : tensor) : Prop :=
  length (t_data t) = numel (t_shape t).

(** 0 and 1 in each dtype. *)
Definition zero_of (d : dtype) : scalar :=
  match d with
  | int64 => I 0
  | _ => F (S754_zero false)
  end.

Definition one_of (d : dtype) : scalar :=
  match d with
  | int64 => I 1
  | float32 => F (S754_finite false 8388608 (-23))
  | float64 => F (S754_finite false 4503599627370496 (-52))
  end.

Definition is_one (v : scalar) : bool :=
  match v with
  | I 1 => true
  | F (S754_finite false 8388608 (-23)) => true
  | F (S754_finite false 4503599627370496 (-52)) => true
  | _ => false
  end.

(** A mask of dtype [d] is binary when each entry is 0 or 1. *)
Definition binary_in (d : dtype) (v : scalar) : Prop :=
  v = zero_of d \/ v = one_of d.

Definition binary_mask (t : tensor) : Prop :=
  Forall (binary_in (t_dtype t)) (t_data t).

(** Two masks are disjoint when no position is 1 in both. *)
Definition disjoint_masks (a b : tensor) : Prop :=
  Forall2 (fun u v => is_one u && is_one v = false) (t_data a) (t_data b).

(** Logical OR of two mask entries, as an entry of dtype [d]. *)
Definition or_scalar (d : dtype) (u v : scalar) : scalar :=
  if is_one u || is_one v then one_of d else zero_of d.

(** *** The sample as a function of what the collaborators returned

    Once the row of [X] is read and the masker has run, the rest of either
    method reads the world without changing it.  [assemble] is that rest:
    [src] is the container of the optional fields, [out] the four results
    of the masker, [gt_mask] the mask the method chose and [label] the label
    part.  [fetch_array_eq] and [fetch_file_eq] below prove that the
    methods compute exactly this. *)

Definition assemble (src : result (gmap string tensor)) (steps : nat)
    (idx : Z) (out : tensor * tensor * tensor * tensor) (gt_mask : tensor)
    (label : result (list tensor)) : result (list tensor) :=
  result_bind (add (missing_mask_of out) (indicating_mask_of out)) (fun om =>
  result_bind src (fun d =>
  result_bind (optional_field d "time_points" idx (Ok (arange steps))) (fun tp =>
  result_bind (optional_field d "for_pattern_mask" idx (Ok gt_mask)) (fun fpm =>
  result_bind (optional_field d "cut_length" idx (zeros_long (X_intact_of out)))
    (fun cl =>
  result_bind (tensor_of_int idx) (fun index =>
  result_bind label (fun lbl =>
  Ok ([index; X_intact_of out; om; tp; gt_mask; fpm; cl] ++ lbl)))))))).

(** [self.data] as the dict of the in-memory mode. *)
Definition array_source (ds : DatasetForCSDI) : result (gmap string tensor) :=
  match data ds with
  | DataDict d => Ok d
  | DataPath _ => Raise AttributeError
  end.

(** The handle a file-backed fetch works with: the one already open, or the
    one it opens. *)
Definition handle_for (open_file : string -> result h5file)
    (ds : DatasetForCSDI) : result h5file :=
  match file_handle ds with
  | Some h => Ok h
  | None =>
      match data ds with
      | DataPath p => open_file p
      | DataDict _ => Raise TypeError
      end
  end.

(** The object once a fetch has made sure the handle [h] is there. *)
Definition with_handle (h : h5file) (ds : DatasetForCSDI) : DatasetForCSDI :=
  match file_handle ds with
  | Some _ => ds
  | None => set_file_handle h ds
  end.

(** *** The two storage modes, side by side *)

Definition masker (rng : Type) : Type :=
  tensor -> spec_float -> rng -> (tensor * tensor * tensor * tensor) * rng.

Inductive storage_mode : Type := InMemory | FileBacked.

(** Modelled from the spec: [BaseDataset.__init__] is not in this file.
    "Storage mode is selected at construction": the dataset fetches with
    [_fetch_data_from_array] when its data is in memory and with
    [_fetch_data_from_file] when it is a file. *)
Definition fetch_data {rng : Type} (mcar : masker rng)
    (open_file : string -> result h5file) (mode : storage_mode)
    : Z -> M rng (list tensor) :=
  match mode with
  | InMemory => _fetch_data_from_array rng mcar
  | FileBacked => _fetch_data_from_file rng mcar open_file
  end.

(** The container a mode reads its fields from: the dict, or the items of
    the file. *)
Definition source_of (open_file : string -> result h5file)
    (mode : storage_mode) (ds : DatasetForCSDI) : result (gmap string tensor) :=
  match mode with
  | InMemory => array_source ds
  | FileBacked => result_bind (handle_for open_file ds) (fun h => Ok (h5_items h))
  end.

(** The array of all series: [self.X], or the ["X"] dataset of the file.
    Its first dimension is the length of the dataset. *)
Definition data_X (open_file : string -> result h5file)
    (mode : storage_mode) (ds : DatasetForCSDI) : result tensor :=
  match mode with
  | InMemory =>
      match X ds with
      | Some x => Ok x
      | None => Raise AttributeError
      end
  | FileBacked =>
      result_bind (handle_for open_file ds) (fun h => subscript (h5_items h) "X")
  end.

(** Whether the source has labels: [self.y is not None], or ["y"] among the
    keys of the file. *)
Definition has_labels (open_file : string -> result h5file)
    (mode : storage_mode) (ds : DatasetForCSDI) : bool :=
  match mode with
  | InMemory => bool_decide (is_Some (y ds))
  | FileBacked =>
      match handle_for open_file ds with
      | Ok h => has_key (h5_items h) "y"
      | Raise _ => false
      end
  end.

(** The array of labels, when there is one. *)
Definition data_y (open_file : string -> result h5file)
    (mode : storage_mode) (ds : DatasetForCSDI) : option tensor :=
  match mode with
  | InMemory => y ds
  | FileBacked =>
      match handle_for open_file ds with
      | Ok h => h5_items h !! "y"
      | Raise _ => None
      end
  end.

(** How each mode reads row [idx] of that array: indexing a torch tensor,
    or indexing an h5py dataset. *)
Definition read_row (mode : storage_mode) (x : tensor) (idx : Z)
    : result tensor :=
  match mode with
  | InMemory => tensor_getitem x idx
  | FileBacked => getitem x idx
  end.

(** The mask each mode returns as [gt_mask]. *)
Definition gt_mask_of (mode : storage_mode)
    (out : tensor * tensor * tensor * tensor) : tensor :=
  match mode with
  | InMemory => missing_mask_of out
  | FileBacked => indicating_mask_of out
  end.

(** The object after a fetch in each mode. *)
Definition after_fetch (open_file : string -> result h5file)
    (mode : storage_mode) (ds : DatasetForCSDI) : DatasetForCSDI :=
  match mode with
  | InMemory => ds
  | FileBacked =>
      match handle_for open_file ds with
      | Ok h => with_handle h ds
      | Raise _ => ds
      end
  end.

(** The label part of a sample: empty unless the source has labels and they
    were asked for, else the row [idx] of the labels as int64. *)
Definition label_spec (open_file : string -> result h5file)
    (mode : storage_mode) (ds : DatasetForCSDI) (idx : Z)
    (lbl : list tensor) : Prop :=
  if has_labels open_file mode ds && return_labels ds
  then exists y0 yi,
         data_y open_file mode ds = Some y0 /\ getitem y0 idx = Ok yi /\
         lbl = [to int64 yi]
  else lbl = [].

(** ** Concrete collaborators, for running the methods *)

(** A masker whose random choices are read off a list of draws: each call
    uses one draw, a list of flags saying which positions to hide.  Like
    pygrinder's [mcar] it hides observed (non-NaN) values only, returns
    float32 masks of the shape of its input and replaces NaN by 0. *)
Definition is_nan (v : scalar) : bool :=
  match v with
  | F S754_nan => true
  | _ => false
  end.

Definition nan_to_zero (v : scalar) : scalar :=
  if is_nan v then F (S754_zero false) else v.

Definition flag (b : bool) : scalar :=
  if b then one_of float32 else zero_of float32.

Definition mcar_draws (x : tensor) (p : spec_float) (g : list (list bool))
    : (tensor * tensor * tensor * tensor) * list (list bool) :=
  let draw := hd [] g in
  let observed := (fun v => negb (is_nan v)) <$> t_data x in
  let hidden :=
    zip_with andb observed (draw ++ replicate (length observed) false) in
  let kept := zip_with (fun o h => o && negb h) observed hidden in
  let X_intact := Tensor (t_dtype x) (t_shape x) (nan_to_zero <$> t_data x) in
  let X_masked :=
    Tensor (t_dtype x) (t_shape x)
      (zip_with (fun v h => if h : bool then F (S754_zero false)
                            else nan_to_zero v) (t_data x) hidden) in
  ((X_intact, X_masked,
    Tensor float32 (t_shape x) (flag <$> kept),
    Tensor float32 (t_shape x) (flag <$> hidden)), tl g).

(** The same masker, except that it returns an empty tensor in place of the
    masked series. *)
Definition mcar_draws_blank (x : tensor) (p : spec_float)
    (g : list (list bool))
    : (tensor * tensor * tensor * tensor) * list (list bool) :=
  let r := mcar_draws x p g in
  ((X_intact_of r.1, Tensor float32 [0%nat] [],
    missing_mask_of r.1, indicating_mask_of r.1), r.2).

(** Small float32 values. *)
Definition f32 (z : Z) : scalar := F (float_of_Z 24 128 z).

(** Two samples of three steps and two features; one value is missing. *)
Definition demo_X : tensor :=
  Tensor float32 [2; 3; 2]%nat
    [ f32 1; f32 2; F S754_nan; f32 4; f32 5; f32 6;
      f32 7; f32 8; f32 9; f32 10; f32 11; f32 12 ].

Definition demo_y : tensor := Tensor int64 [2]%nat [I 0; I 1].

Definition demo_cut_length : tensor :=
  Tensor int64 [2; 3]%nat [I 0; I 0; I 1; I 0; I 2; I 2].

Definition demo_rate : spec_float := S754_finite false 1 (-1).

(** An in-memory dataset with labels and no optional field. *)
Definition demo_array : DatasetForCSDI :=
  Dataset (DataDict {[ "X" := demo_X; "y" := demo_y ]}) true demo_rate
    (Some demo_X) (Some demo_y) 3 None.

(** An in-memory dataset with a [cut_length] field. *)
Definition demo_array_cut : DatasetForCSDI :=
  Dataset (DataDict {[ "X" := demo_X; "cut_length" := demo_cut_length ]})
    true demo_rate (Some demo_X) None 3 None.

(** A file with the same data, and a dataset on it that is not open yet. *)
Definition demo_h5 : h5file :=
  H5File "demo.h5" {[ "X" := demo_X; "y" := demo_y ]}.

Definition demo_fs (p : string) : result h5file :=
  if String.eqb p "demo.h5" then Ok demo_h5 else Raise OSError.

Definition demo_file : DatasetForCSDI :=
  Dataset (DataPath "demo.h5") true demo_rate None None 3 None.

(** Two draws that hide different positions. *)
Definition demo_draws : list (list bool) :=
  [ [true; false; false; false; false; false];
    [false; true; false; false; false; false] ].

(** The optional fields a fetch looks for in its source. *)
Definition optional_keys : list string :=
  ["time_points"; "for_pattern_mask"; "cut_length"].

(** Where each optional field goes in the sample. *)
Definition pos_of_key (key : string) : nat :=
  if String.eqb key "time_points" then pos_time_points
  else if String.eqb key "for_pattern_mask" then pos_for_pattern_mask
  else pos_cut_length.

(** *** More data to run the methods on *)

(** Time stamps stored as float64, and a pattern mask stored as float32. *)
Definition f64 (z : Z) : scalar := F (float_of_Z 53 1024 z).

Definition demo_time_points : tensor :=
  Tensor float64 [2; 3]%nat [f64 0; f64 5; f64 9; f64 1; f64 2; f64 4].

Definition demo_pattern : tensor :=
  Tensor float32 [2; 3; 2]%nat
    [ f32 1; f32 0; f32 1; f32 1; f32 0; f32 1;
      f32 1; f32 1; f32 0; f32 0; f32 1; f32 1 ].

(** An in-memory dataset with every optional field, and the same data as a
    file. *)
Definition demo_full_items : gmap string tensor :=
  {[ "X" := demo_X; "y" := demo_y; "time_points" := demo_time_points;
     "for_pattern_mask" := demo_pattern; "cut_length" := demo_cut_length ]}.

Definition demo_array_full : DatasetForCSDI :=
  Dataset (DataDict demo_full_items) true demo_rate
    (Some demo_X) (Some demo_y) 3 None.

Definition demo_h5_full : h5file := H5File "full.h5" demo_full_items.

(** A file with labels and no ["X"]. *)
Definition demo_h5_labels : h5file := H5File "labels.h5" {[ "y" := demo_y ]}.

Definition demo_fs_more (p : string) : result h5file :=
  if String.eqb p "full.h5" then Ok demo_h5_full
  else if String.eqb p "labels.h5" then Ok demo_h5_labels
  else demo_fs p.

Definition demo_file_full : DatasetForCSDI :=
  Dataset (DataPath "full.h5") true demo_rate None None 3 None.

Definition demo_file_labels : DatasetForCSDI :=
  Dataset (DataPath "labels.h5") true demo_rate None None 3 None.

(** A [cut_length] with one number per sample. *)
Definition demo_cut_flat : tensor := Tensor int64 [2]%nat [I 0; I 1].

Definition demo_array_cut_flat : DatasetForCSDI :=
  Dataset (DataDict {[ "X" := demo_X; "cut_length" := demo_cut_flat ]})
    true demo_rate (Some demo_X) None 3 None.

(** Series of a single number each. *)
Definition demo_X_flat : tensor := Tensor float32 [2]%nat [f32 1; f32 2].

Definition demo_array_flat : DatasetForCSDI :=
  Dataset (DataDict {[ "X" := demo_X_flat ]}) true demo_rate
    (Some demo_X_flat) None 1 None.

(** A masker that is [mcar_draws] on float32 input at rate [demo_rate] and
    returns no masked series otherwise. *)
Definition mcar_draws_float32 (x : tensor) (p : spec_float)
    (g : list (list bool))
    : (tensor * tensor * tensor * tensor) * list (list bool) :=
  if dtype_eqb (t_dtype x) float32 && SFeqb p demo_rate
  then mcar_draws x p g
  else mcar_draws_blank x p g.

(** The demo data once more, with other entries under ["X"] and ["y"] and
    one more key. *)
Definition demo_other_items : gmap string tensor :=
  {[ "X" := demo_y; "y" := demo_X; "extra" := demo_cut_length ]}.

Definition demo_array_other : DatasetForCSDI :=
  Dataset (DataDict demo_other_items) true demo_rate
    (Some demo_X) (Some demo_y) 3 None.

(** A file like ["demo.h5"] with one more dataset in it. *)
Definition demo_h5_extra : h5file :=
  H5File "extra.h5"
    {[ "X" := demo_X; "y" := demo_y; "extra" := demo_cut_length ]}.

Definition demo_fs_extra (p : string) : result h5file :=
  if String.eqb p "demo.h5" then Ok demo_h5_extra else Raise OSError.

(** ** Facts about arrays *)

Section TorchFacts.

Lemma slices_concat (n d : nat) (l : list scalar) :
  length l = (d * n)%nat ->
  flat_map (fun i => slice i n l) (seq 0 d) = l.
Proof.
  revert l. induction d as [|d IH]; intros l Hl.
  - by destruct l.
  - cbn [seq flat_map]. rewrite <- fmap_S_seq.
    trans (take n l ++ drop n l); [|apply take_drop]. f_equal.
    etrans; [|apply (IH (drop n l)); rewrite length_drop; lia].
    rewrite !flat_map_concat_map, <- list_fmap_compose. f_equal.
    apply list_fmap_ext. intros _ i _. unfold slice. cbn.
    by rewrite drop_drop.
Qed.

Lemma length_slice (i n d : nat) (l : list scalar) :
  length l = (d * n)%nat -> (i < d)%nat -> length (slice i n l) = n.
Proof.
  intros Hl Hi. unfold slice. rewrite length_take, length_drop. nia.
Qed.

Lemma slice_zip_with (f : scalar -> scalar -> scalar) i n va vb :
  slice i n (zip_with f va vb) = zip_with f (slice i n va) (slice i n vb).
Proof. unfold slice. by rewrite zip_with_drop, zip_with_take. Qed.

(** On operands of one shape, broadcasting is plain elementwise
    application. *)
Lemma broadcast_data_same (f : scalar -> scalar -> scalar) s va vb :
  length va = numel s -> length vb = numel s ->
  broadcast_data f s s s va vb = zip_with f va vb.
Proof.
  revert va vb. induction s as [|d s IH]; intros va vb Ha Hb.
  - cbn in *. destruct va as [|x [|? ?]], vb as [|y [|? ?]]; done.
  - cbn [broadcast_data]. cbn [numel foldr] in Ha, Hb. fold (numel s) in *.
    rewrite <- (slices_concat (numel s) d (zip_with f va vb)).
    2:{ rewrite length_zip_with. lia. }
    rewrite !flat_map_concat_map. f_equal.
    apply list_fmap_ext. intros k i Hk.
    apply lookup_seq in Hk as [-> Hk]. cbn.
    assert ((if (d =? 1)%nat then 0%nat else k) = k) as ->.
    { destruct (Nat.eqb_spec d 1); lia. }
    rewrite slice_zip_with.
    apply IH; eapply length_slice; eauto.
Qed.

Lemma broadcast_rev_same r : broadcast_rev r r = Some r.
Proof.
  induction r as [|a r IH]; [done|]. cbn. rewrite IH. cbn.
  by rewrite Nat.eqb_refl.
Qed.

Lemma broadcast_shapes_same s : broadcast_shapes s s = Some s.
Proof.
  unfold broadcast_shapes. rewrite broadcast_rev_same. cbn.
  by rewrite reverse_involutive.
Qed.

Lemma pad_shape_same s : pad_shape (length s) s = s.
Proof. unfold pad_shape. by rewrite Nat.sub_diag. Qed.

(** [a + b] on two well-shaped operands of one shape. *)
Lemma add_same_shape (a b : tensor) :
  t_shape a = t_shape b -> well_shaped a -> well_shaped b ->
  add a b =
    Ok (Tensor (result_type a b) (t_shape a)
          (zip_with (add_scalar (result_type a b)) (t_data a) (t_data b))).
Proof.
  intros Hs Ha Hb. unfold add. rewrite <- Hs, broadcast_shapes_same.
  rewrite pad_shape_same. do 2 f_equal.
  apply broadcast_data_same; [done|]. by rewrite Hs.
Qed.

(** The sum of two binary entries that are not both 1 is their logical
    OR, and is binary, whatever the dtypes of the operands. *)
Lemma add_scalar_binary d da db u v :
  binary_in da u -> binary_in db v -> is_one u && is_one v = false ->
  (d = da \/ d = db) ->
  (is_floating da = false -> d = db) ->
  (is_floating db = false -> d = da) ->
  add_scalar d u v = or_scalar d u v /\ binary_in d (add_scalar d u v).
Proof.
  intros [-> | ->] [-> | ->] Hdis Hd Ha Hb;
    destruct da, db, d; cbn in Hdis; try discriminate;
    try (destruct Hd; discriminate);
    try (specialize (Ha eq_refl); discriminate);
    try (specialize (Hb eq_refl); discriminate);
    (split; [vm_compute; reflexivity | ]);
    solve [ left; vm_compute; reflexivity | right; vm_compute; reflexivity ].
Qed.

Lemma result_type_cases (a b : tensor) :
  (result_type a b = t_dtype a \/ result_type a b = t_dtype b) /\
  (is_floating (t_dtype a) = false -> result_type a b = t_dtype b) /\
  (is_floating (t_dtype b) = false -> result_type a b = t_dtype a).
Proof.
  unfold result_type.
  destruct (t_dtype a), (t_dtype b), (t_shape a), (t_shape b); cbn;
    intuition congruence.
Qed.

End TorchFacts.

(** ** The two methods, factored *)

Section FetchFacts.

Context {rng : Type}.
Variable mcar :
  tensor -> spec_float -> rng -> (tensor * tensor * tensor * tensor) * rng.
Variable open_file : string -> result h5file.

Abbreviation fetch_array := (_fetch_data_from_array rng mcar).
Abbreviation fetch_file := (_fetch_data_from_file rng mcar open_file).

Lemma result_bind_ok {A B} (r : result A) (k : A -> result B) b :
  result_bind r k = Ok b -> exists a, r = Ok a /\ k a = Ok b.
Proof. destruct r; cbn; [eauto | discriminate]. Qed.

(** The in-memory method: read the row, run the masker, assemble. *)
Lemma fetch_array_eq (idx : Z) (w : world rng) :
  fetch_array idx w =
    match X (self w) with
    | None => (Raise AttributeError, w)
    | Some X0 =>
        match tensor_getitem X0 idx with
        | Raise e => (Raise e, w)
        | Ok Xi =>
            let r := mcar (to float32 Xi) (rate (self w)) (rnd w) in
            (assemble (array_source (self w)) (n_steps (self w)) idx r.1
               (missing_mask_of r.1) (array_label (self w) idx),
             World (self w) r.2)
        end
    end.
Proof.
  destruct w as [[src rl rt x0 y0 n fh] g].
  unfold _fetch_data_from_array, assemble, array_source, array_label,
    optional_field, bind, ret, lift, attr, attr_X, data_dict, call_mcar,
    missing_mask_of, indicating_mask_of, X_intact_of.
  cbn [self rnd X y data rate n_steps return_labels].
  destruct x0 as [X0|]; [|done].
  destruct (tensor_getitem X0 idx) as [Xi|e]; [|done]. cbn zeta.
  destruct (mcar _ _ _) as [[[[xi xm] mm] im] g'].
  cbn [fst snd self rnd X y data rate n_steps return_labels].
  destruct (add mm im); [|done].
  destruct src as [d|p]; [|done].
  cbn [result_bind self rnd X y data rate n_steps return_labels].
  destruct (has_key d "time_points"); cbn [negb];
    [destruct (load_float32 d "time_points" idx); [|done]|];
    cbn [result_bind self rnd X y data rate n_steps return_labels];
    (destruct (has_key d "for_pattern_mask"); cbn [negb];
     [destruct (load_float32 d "for_pattern_mask" idx); [|done]|]);
    cbn [result_bind self rnd X y data rate n_steps return_labels];
    (destruct (has_key d "cut_length"); cbn [negb];
     [destruct (load_float32 d "cut_length" idx); [|done]
     |destruct (zeros_long xi); [|done]]);
    cbn [result_bind self rnd X y data rate n_steps return_labels];
    (destruct (tensor_of_int idx); [|done]);
    cbn [result_bind self rnd X y data rate n_steps return_labels];
    destruct y0 as [y0|]; try done;
    destruct rl; try done;
    destruct (tensor_getitem y0 idx); done.
Qed.

(** The file-backed method: make sure the file is open, read the row, run
    the masker, assemble. *)
Lemma fetch_file_eq (idx : Z) (w : world rng) :
  fetch_file idx w =
    match handle_for open_file (self w) with
    | Raise e => (Raise e, w)
    | Ok h =>
        let ds := with_handle h (self w) in
        let f := h5_items h in
        match result_bind (subscript f "X") (fun X0 =>
              result_bind (getitem X0 idx) from_numpy) with
        | Raise e => (Raise e, World ds (rnd w))
        | Ok X1 =>
            let r := mcar (to float32 X1) (rate (self w)) (rnd w) in
            (assemble (Ok f) (n_steps (self w)) idx r.1
               (indicating_mask_of r.1) (file_label f (self w) idx),
             World ds r.2)
        end
    end.
Proof.
  destruct w as [[src rl rt x0 y0 n fh] g].
  unfold _fetch_data_from_file, assemble, handle_for, with_handle,
    file_label, optional_field, bind, ret, lift, attr, the_file,
    _open_file_handle, assign_file_handle, set_file_handle, call_mcar,
    missing_mask_of, indicating_mask_of, X_intact_of.
  cbn [self rnd X y data rate n_steps return_labels file_handle].
  destruct fh as [h|];
    [|destruct src as [d|p];
      cbn [self rnd X y data rate n_steps return_labels file_handle];
      [done|];
      destruct (open_file p) as [h|e];
      cbn [self rnd X y data rate n_steps return_labels file_handle];
      [|done]];
    cbn [self rnd X y data rate n_steps return_labels file_handle];
    (destruct (subscript (h5_items h) "X") as [X0|e]; [|done]);
    cbn [result_bind];
    (destruct (getitem X0 idx) as [Xi|e]; [|done]);
    cbn [result_bind];
    (destruct (from_numpy Xi) as [X1|e]; [|done]); cbn zeta;
    destruct (mcar _ _ _) as [[[[xi xm] mm] im] g'];
    cbn [fst snd self rnd X y data rate n_steps return_labels file_handle];
    (destruct (add mm im); [|done]);
    cbn [result_bind self rnd X y data rate n_steps return_labels
           file_handle];
    (destruct (has_key (h5_items h) "time_points"); cbn [negb];
      [destruct (load_float32 (h5_items h) "time_points" idx); [|done]|]);
    cbn [result_bind self rnd X y data rate n_steps return_labels
           file_handle];
    (destruct (has_key (h5_items h) "for_pattern_mask"); cbn [negb];
     [destruct (load_float32 (h5_items h) "for_pattern_mask" idx); [|done]|]);
    cbn [result_bind self rnd X y data rate n_steps return_labels
           file_handle];
    (destruct (has_key (h5_items h) "cut_length"); cbn [negb];
     [destruct (load_float32 (h5_items h) "cut_length" idx); [|done]
     |destruct (zeros_long xi); [|done]]);
    cbn [result_bind self rnd X y data rate n_steps return_labels
           file_handle];
    (destruct (tensor_of_int idx); [|done]);
    cbn [result_bind self rnd X y data rate n_steps return_labels
           file_handle];
    destruct (has_key (h5_items h) "y");
    cbn [andb result_bind self rnd X y data rate n_steps return_labels
           file_handle]; try done;
    destruct rl; cbn [result_bind]; try done;
    (destruct (subscript (h5_items h) "y") as [yy|]; [|done]);
    cbn [result_bind];
    (destruct (getitem yy idx) as [yi|]; [|done]);
    cbn [result_bind];
    destruct (tensor_long yi); done.
Qed.

Lemma assemble_ok src steps idx out gt label s :
  assemble src steps idx out gt label = Ok s ->
  exists om d tp fpm cl lbl,
    add (missing_mask_of out) (indicating_mask_of out) = Ok om /\
    src = Ok d /\
    optional_field d "time_points" idx (Ok (arange steps)) = Ok tp /\
    optional_field d "for_pattern_mask" idx (Ok gt) = Ok fpm /\
    optional_field d "cut_length" idx (zeros_long (X_intact_of out)) = Ok cl /\
    tensor_of_int idx = Ok (Tensor int64 [] [I idx]) /\
    label = Ok lbl /\
    s = [Tensor int64 [] [I idx]; X_intact_of out; om; tp; gt; fpm; cl] ++ lbl.
Proof.
  unfold assemble. intros H.
  apply result_bind_ok in H as (om & Hom & H).
  apply result_bind_ok in H as (d & Hd & H).
  apply result_bind_ok in H as (tp & Htp & H).
  apply result_bind_ok in H as (fpm & Hfpm & H).
  apply result_bind_ok in H as (cl & Hcl & H).
  apply result_bind_ok in H as (index & Hidx & H).
  apply result_bind_ok in H as (lbl & Hlbl & H).
  assert (index = Tensor int64 [] [I idx]) as ->.
  { unfold tensor_of_int in Hidx. by case_match; simplify_eq. }
  exists om, d, tp, fpm, cl, lbl. by simplify_eq.
Qed.

Lemma from_numpy_ok a t : from_numpy a = Ok t -> t = a.
Proof. unfold from_numpy. by case_match; intros; simplify_eq. Qed.

Lemma has_key_None (src : gmap string tensor) key :
  src !! key = None -> has_key src key = false.
Proof.
  intros H. unfold has_key. apply bool_decide_eq_false.
  rewrite H. by intros [? ?].
Qed.

Lemma has_key_Some (src : gmap string tensor) key a :
  src !! key = Some a -> has_key src key = true.
Proof. intros H. unfold has_key. apply bool_decide_eq_true. by rewrite H. Qed.

Lemma optional_field_absent src key idx default :
  src !! key = None -> optional_field src key idx default = default.
Proof. intros H. unfold optional_field. by rewrite has_key_None. Qed.

Lemma optional_field_present src key idx default a :
  src !! key = Some a ->
  optional_field src key idx default = load_float32 src key idx.
Proof. intros H. unfold optional_field. by erewrite has_key_Some. Qed.

Lemma to_same_dtype t : to (t_dtype t) t = t.
Proof. unfold to. by destruct (t_dtype t). Qed.

(** An index in range selects a row. *)
Lemma getitem_in_range x idx :
  in_range x idx -> exists row, getitem x idx = Ok row.
Proof.
  unfold in_range, n_samples, getitem. destruct (t_shape x) as [|d sh].
  - cbn. lia.
  - intros H. eexists.
    destruct (Z.leb_spec (- Z.of_nat d) idx); [|lia].
    destruct (Z.ltb_spec idx (Z.of_nat d)); [done|lia].
Qed.


(** Indexing a torch tensor: when it returns, it is plain indexing. *)
Lemma tensor_getitem_ok x idx row :
  tensor_getitem x idx = Ok row ->
  getitem x idx = Ok row /\ int64_min <= idx <= int64_max.
Proof.
  unfold tensor_getitem.
  destruct (Z.leb_spec int64_min idx); [|done].
  destruct (Z.leb_spec idx int64_max); [|done]. cbn.
  destruct (_ && _); [done|]. intros. split; [done|lia].
Qed.

(** Strictly inside the 64-bit range it is plain indexing too. *)
Lemma tensor_getitem_int64 x idx :
  int64_min < idx <= int64_max -> tensor_getitem x idx = getitem x idx.
Proof.
  intros H. unfold tensor_getitem.
  destruct (Z.leb_spec int64_min idx); [|lia].
  destruct (Z.leb_spec idx int64_max); [|lia]. cbn.
  by destruct (Z.eqb_spec idx int64_min); [lia|].
Qed.


(** The label conversion, when it returns, is the cast to int64. *)
Lemma tensor_long_ok a l : tensor_long a = Ok l -> l = to int64 a.
Proof.
  unfold tensor_long. intros H.
  repeat case_match; by simplify_eq.
Qed.

(** It returns on integers. *)
Lemma tensor_long_int64 a : t_dtype a = int64 -> tensor_long a = Ok a.
Proof.
  intros H. assert (to int64 a = a) as Hto.
  { rewrite <- H. apply to_same_dtype. }
  unfold tensor_long. rewrite H, Hto. by destruct (t_shape a).
Qed.

(** What a returned sample tells about the run, in-memory. *)
Lemma fetch_array_ok idx w s w' :
  fetch_array idx w = (Ok s, w') ->
  exists X0 Xi,
    X (self w) = Some X0 /\ getitem X0 idx = Ok Xi /\
    let r := mcar (to float32 Xi) (rate (self w)) (rnd w) in
    assemble (array_source (self w)) (n_steps (self w)) idx r.1
      (missing_mask_of r.1) (array_label (self w) idx) = Ok s /\
    w' = World (self w) r.2.
Proof.
  rewrite fetch_array_eq. intros H.
  destruct (X (self w)) as [X0|] eqn:HX; [|done].
  destruct (tensor_getitem X0 idx) as [Xi|] eqn:HXi; [|done].
  apply tensor_getitem_ok in HXi as [HXi _].
  exists X0, Xi. cbn zeta in *. by simplify_eq.
Qed.

(** What a returned sample tells about the run, file-backed. *)
Lemma fetch_file_ok idx w s w' :
  fetch_file idx w = (Ok s, w') ->
  exists h X0 Xi,
    handle_for open_file (self w) = Ok h /\
    h5_items h !! "X" = Some X0 /\ getitem X0 idx = Ok Xi /\
    let r := mcar (to float32 Xi) (rate (self w)) (rnd w) in
    assemble (Ok (h5_items h)) (n_steps (self w)) idx r.1
      (indicating_mask_of r.1) (file_label (h5_items h) (self w) idx) = Ok s /\
    w' = World (with_handle h (self w)) r.2.
Proof.
  rewrite fetch_file_eq. intros H.
  destruct (handle_for open_file (self w)) as [h|]; [|done].
  cbn zeta in H. unfold subscript in H.
  destruct (h5_items h !! "X") as [X0|] eqn:HX; [|done].
  cbn [result_bind] in H.
  destruct (getitem X0 idx) as [Xi|] eqn:HXi; [|done].
  cbn [result_bind] in H.
  destruct (from_numpy Xi) as [X1|] eqn:HX1; [|done].
  apply from_numpy_ok in HX1 as ->.
  exists h, X0, Xi. cbn zeta. by simplify_eq.
Qed.

End FetchFacts.

(** ** Both modes at once *)

Section BothModes.

Context {rng : Type}.
Variable mcar : masker rng.
Variable open_file : string -> result h5file.

(** What a returned sample tells about the run that built it. *)
Lemma fetch_data_ok mode idx (w : world rng) s w' :
  fetch_data mcar open_file mode idx w = (Ok s, w') ->
  exists X0 Xi src om tp fpm cl lbl,
    let r := mcar (to float32 Xi) (rate (self w)) (rnd w) in
    data_X open_file mode (self w) = Ok X0 /\
    getitem X0 idx = Ok Xi /\
    source_of open_file mode (self w) = Ok src /\
    add (missing_mask_of r.1) (indicating_mask_of r.1) = Ok om /\
    optional_field src "time_points" idx (Ok (arange (n_steps (self w))))
      = Ok tp /\
    optional_field src "for_pattern_mask" idx (Ok (gt_mask_of mode r.1))
      = Ok fpm /\
    optional_field src "cut_length" idx (zeros_long (X_intact_of r.1))
      = Ok cl /\
    label_spec open_file mode (self w) idx lbl /\
    s = [Tensor int64 [] [I idx]; X_intact_of r.1; om; tp;
         gt_mask_of mode r.1; fpm; cl] ++ lbl /\
    w' = World (after_fetch open_file mode (self w)) r.2.
Proof.
  destruct mode; cbn [fetch_data]; intros H.
  - apply fetch_array_ok in H as (X0 & Xi & HX & HXi & H & ->).
    apply assemble_ok in H
      as (om & d & tp & fpm & cl & lbl & Hom & Hd & Htp & Hfpm & Hcl & _ & Hl & ->).
    exists X0, Xi, d, om, tp, fpm, cl, lbl. cbn zeta.
    cbn [data_X source_of gt_mask_of after_fetch]. rewrite HX.
    repeat split; try done.
    unfold label_spec, array_label in *. cbn [has_labels data_y].
    destruct (y (self w)) as [y0|]; cbn; [|by simplify_eq].
    destruct (return_labels (self w)); cbn; [|by simplify_eq].
    apply result_bind_ok in Hl as (yi & Hyi & Hl).
    apply tensor_getitem_ok in Hyi as [Hyi _].
    exists y0, yi. by simplify_eq.
  - apply fetch_file_ok in H as (h & X0 & Xi & Hh & HX & HXi & H & ->).
    apply assemble_ok in H
      as (om & d & tp & fpm & cl & lbl & Hom & Hd & Htp & Hfpm & Hcl & _ & Hl & ->).
    exists X0, Xi, d, om, tp, fpm, cl, lbl. cbn zeta.
    cbn [data_X source_of gt_mask_of after_fetch]. rewrite Hh. cbn.
    unfold subscript. rewrite HX. simplify_eq.
    repeat split; try done.
    unfold label_spec, file_label in *. cbn [has_labels data_y]. rewrite Hh.
    destruct (has_key (h5_items h) "y" && return_labels (self w));
      [|by simplify_eq].
    apply result_bind_ok in Hl as (y0 & Hy0 & Hl).
    apply result_bind_ok in Hl as (yi & Hyi & Hl).
    apply result_bind_ok in Hl as (l & Hlong & Hl).
    apply tensor_long_ok in Hlong as ->.
    exists y0, yi. unfold subscript in Hy0.
    destruct (h5_items h !! "y"); by simplify_eq.
Qed.

(** The same, with the row and the results of the masker named. *)
Lemma fetch_data_run mode idx (w : world rng) X0 Xi out g s w' :
  data_X open_file mode (self w) = Ok X0 ->
  getitem X0 idx = Ok Xi ->
  mcar (to float32 Xi) (rate (self w)) (rnd w) = (out, g) ->
  fetch_data mcar open_file mode idx w = (Ok s, w') ->
  exists src om tp fpm cl lbl,
    source_of open_file mode (self w) = Ok src /\
    add (missing_mask_of out) (indicating_mask_of out) = Ok om /\
    optional_field src "time_points" idx (Ok (arange (n_steps (self w))))
      = Ok tp /\
    optional_field src "for_pattern_mask" idx (Ok (gt_mask_of mode out))
      = Ok fpm /\
    optional_field src "cut_length" idx (zeros_long (X_intact_of out))
      = Ok cl /\
    label_spec open_file mode (self w) idx lbl /\
    s = [Tensor int64 [] [I idx]; X_intact_of out; om; tp;
         gt_mask_of mode out; fpm; cl] ++ lbl /\
    w' = World (after_fetch open_file mode (self w)) g.
Proof.
  intros HX HXi Hm H.
  apply fetch_data_ok in H
    as (X0' & Xi' & src & om & tp & fpm & cl & lbl & H).
  cbn zeta in H. destruct H as (HX' & HXi' & H).
  rewrite HX in HX'. simplify_eq. rewrite HXi in HXi'. simplify_eq.
  rewrite Hm in H. cbn [fst snd] in H.
  exists src, om, tp, fpm, cl, lbl. tauto.
Qed.

End BothModes.

(** ** A well-formed dataset returns a sample *)

Section Totality.

Context {rng : Type}.
Variable mcar : masker rng.
Variable open_file : string -> result h5file.

Lemma getitem_dtype a idx row :
  getitem a idx = Ok row -> t_dtype row = t_dtype a.
Proof.
  unfold getitem. destruct (t_shape a); [done|].
  destruct (_ && _); [|done]. by intros [= <-].
Qed.

Lemma label_part_returns mode ds idx :
  0 <= idx <= int64_max ->
  (forall y0, data_y open_file mode ds = Some y0 ->
              in_range y0 idx /\ t_dtype y0 = int64) ->
  exists lbl,
    match mode with
    | InMemory => array_label ds idx = Ok lbl
    | FileBacked =>
        forall h, handle_for open_file ds = Ok h ->
                  file_label (h5_items h) ds idx = Ok lbl
    end.
Proof.
  intros Hidx Hy. destruct mode; cbn [data_y] in Hy.
  - unfold array_label. destruct (y ds) as [y0|]; [|by eexists].
    destruct (return_labels ds); [|by eexists].
    rewrite tensor_getitem_int64 by (unfold int64_min; lia).
    destruct (getitem_in_range y0 idx (proj1 (Hy _ eq_refl))) as [yi ->].
    by eexists.
  - unfold file_label, has_key, subscript.
    destruct (handle_for open_file ds) as [h|]; [|by exists []].
    destruct (h5_items h !! "y") as [y0|] eqn:Hy0.
    + destruct (Hy _ eq_refl) as [Hin Hdt].
      destruct (getitem_in_range y0 idx Hin) as [yi Hyi].
      destruct (return_labels ds).
      * exists [yi]. intros h' [= <-]. rewrite Hy0.
        rewrite bool_decide_eq_true_2 by done. cbn. rewrite Hyi. cbn.
        rewrite tensor_long_int64; [done|].
        by rewrite (getitem_dtype _ _ _ Hyi).
      * exists []. intros h' [= <-]. by rewrite andb_false_r.
    + exists []. intros h' [= <-]. rewrite Hy0.
      rewrite bool_decide_eq_false_2; [done|]. by intros [? ?].
Qed.

(** An index in range of a dataset of series, with integer labels (if any)
    for every sample and no optional field, yields a sample as soon as the
    masker keeps its promise on shapes. *)
Lemma fetch_data_returns mode idx (w : world rng) X0 Xi src out g :
  data_X open_file mode (self w) = Ok X0 ->
  in_range X0 idx ->
  idx <= int64_max ->
  getitem X0 idx = Ok Xi ->
  t_shape Xi <> [] ->
  source_of open_file mode (self w) = Ok src ->
  src !! "time_points" = None ->
  src !! "for_pattern_mask" = None ->
  src !! "cut_length" = None ->
  (forall y0, data_y open_file mode (self w) = Some y0 ->
              in_range y0 idx /\ t_dtype y0 = int64) ->
  mcar (to float32 Xi) (rate (self w)) (rnd w) = (out, g) ->
  t_shape (X_intact_of out) = t_shape Xi ->
  t_shape (missing_mask_of out) = t_shape (indicating_mask_of out) ->
  well_shaped (missing_mask_of out) ->
  well_shaped (indicating_mask_of out) ->
  exists s,
    fetch_data mcar open_file mode idx w
    = (Ok s, World (after_fetch open_file mode (self w)) g).
Proof.
  intros HX Hin Hmax HXi Hrow Hsrc Htp Hfpm Hcl Hy Hm Hxi Hs Hwa Hwb.
  assert (0 <= idx <= int64_max) as Hrange by (unfold in_range in Hin; lia).
  destruct (label_part_returns mode (self w) idx Hrange Hy) as [lbl Hlbl].
  assert (tensor_of_int idx = Ok (Tensor int64 [] [I idx])) as Hidx.
  { unfold tensor_of_int, in_range, int64_min in *.
    destruct (Z.leb_spec (- 2 ^ 63) idx); [|lia].
    by destruct (Z.leb_spec idx int64_max); [|lia]. }
  assert (exists cl, zeros_long (X_intact_of out) = Ok cl) as [cl Hzl].
  { unfold zeros_long, len. rewrite Hxi.
    destruct (t_shape Xi); [done|by eexists]. }
  assert (forall gt,
    assemble (Ok src) (n_steps (self w)) idx out gt (Ok lbl)
    = Ok ([Tensor int64 [] [I idx]; X_intact_of out;
           Tensor (result_type (missing_mask_of out) (indicating_mask_of out))
             (t_shape (missing_mask_of out))
             (zip_with
                (add_scalar
                   (result_type (missing_mask_of out) (indicating_mask_of out)))
                (t_data (missing_mask_of out))
                (t_data (indicating_mask_of out)));
           arange (n_steps (self w)); gt; gt; cl] ++ lbl)) as Hasm.
  { intros gt. unfold assemble. rewrite (add_same_shape _ _ Hs Hwa Hwb).
    cbn [result_bind]. rewrite !optional_field_absent by done.
    cbn [result_bind]. rewrite Hzl. cbn [result_bind]. by rewrite Hidx. }
  destruct mode; cbn [fetch_data data_X source_of after_fetch] in *.
  - rewrite fetch_array_eq.
    destruct (X (self w)) as [X0'|]; [|done]. simplify_eq.
    rewrite tensor_getitem_int64 by (unfold int64_min; lia).
    rewrite HXi. cbn zeta. rewrite Hm. cbn [fst snd].
    rewrite Hsrc, Hlbl, Hasm. by eexists.
  - rewrite fetch_file_eq.
    destruct (handle_for open_file (self w)) as [h|]; [|done].
    cbn [result_bind] in HX, Hsrc. cbn zeta. rewrite HX. cbn [result_bind].
    rewrite HXi. cbn [result_bind]. unfold from_numpy at 1.
    destruct (t_shape Xi) eqn:Hsh; [done|].
    rewrite Hm. cbn [fst snd]. simplify_eq.
    rewrite (Hlbl h eq_refl), Hasm. by eexists.
Qed.

End Totality.

(** ** Properties of the returned sample *)

(** C1.  For an index in range, the in-memory method returns as [gt_mask]
    the original-missing mask of the masker ([missing_mask]), the
    file-backed method the synthetic-missing mask ([indicating_mask]). *)
Theorem gt_mask_by_storage_mode {rng : Type} (mcar : masker rng)
    (open_file : string -> result h5file) (mode : storage_mode) (idx : Z)
    (w : world rng) X0 Xi out g s w' :
  data_X open_file mode (self w) = Ok X0 ->
  in_range X0 idx ->
  getitem X0 idx = Ok Xi ->
  mcar (to float32 Xi) (rate (self w)) (rnd w) = (out, g) ->
  fetch_data mcar open_file mode idx w = (Ok s, w') ->
  s !! pos_gt_mask =
    Some (match mode with
          | InMemory => missing_mask_of out
          | FileBacked => indicating_mask_of out
          end).
Proof.
  intros HX _ HXi Hm H.
  destruct (fetch_data_run _ _ _ _ _ _ _ _ _ _ _ HX HXi Hm H)
    as (src & om & tp & fpm & cl & lbl & _ & _ & _ & _ & _ & _ & -> & _).
  by destruct mode.
Qed.

Lemma gt_mask_by_storage_mode_witness :
  (exists s out,
     (fetch_data mcar_draws demo_fs InMemory 0 (World demo_array demo_draws)).1
       = Ok s /\
     s !! pos_gt_mask = Some (missing_mask_of out) /\
     t_data (missing_mask_of out) = flag <$> [false; true; false; true; true; true]) /\
  (exists s out,
     (fetch_data mcar_draws demo_fs FileBacked 0 (World demo_file demo_draws)).1
       = Ok s /\
     s !! pos_gt_mask = Some (indicating_mask_of out) /\
     t_data (indicating_mask_of out) =
       flag <$> [true; false; false; false; false; false]).
Proof.
  split.
  - eexists _, _. split; [vm_compute; reflexivity|]. split.
    + eapply (gt_mask_by_storage_mode mcar_draws demo_fs InMemory 0
                (World demo_array demo_draws));
        [reflexivity | vm_compute; split; [discriminate | reflexivity]
        | reflexivity | reflexivity | vm_compute; reflexivity ].
    + vm_compute. reflexivity.
  - eexists _, _. split; [vm_compute; reflexivity|]. split.
    + eapply (gt_mask_by_storage_mode mcar_draws demo_fs FileBacked 0
                (World demo_file demo_draws));
        [reflexivity | vm_compute; split; [discriminate | reflexivity]
        | reflexivity | reflexivity | vm_compute; reflexivity ].
    + vm_compute. reflexivity.
Defined.

(** C2.  For an index in range, in both modes, the sample is the sequence
    [index, observed_data, observed_mask, time_points, gt_mask,
    for_pattern_mask, cut_length], of length 7, when the source has no
    labels or [return_labels] is false; with labels and [return_labels] it
    has length 8 and the label comes last. *)
Theorem sample_layout {rng : Type} (mcar : masker rng)
    (open_file : string -> result h5file) (mode : storage_mode) (idx : Z)
    (w : world rng) X0 Xi out g s w' :
  data_X open_file mode (self w) = Ok X0 ->
  in_range X0 idx ->
  getitem X0 idx = Ok Xi ->
  mcar (to float32 Xi) (rate (self w)) (rnd w) = (out, g) ->
  fetch_data mcar open_file mode idx w = (Ok s, w') ->
  exists src observed_mask time_points for_pattern_mask cut_length,
    let index := Tensor int64 [] [I idx] in
    let observed_data := X_intact_of out in
    let gt_mask := gt_mask_of mode out in
    let fields :=
      [index; observed_data; observed_mask; time_points; gt_mask;
       for_pattern_mask; cut_length] in
    source_of open_file mode (self w) = Ok src /\
    add (missing_mask_of out) (indicating_mask_of out) = Ok observed_mask /\
    optional_field src "time_points" idx (Ok (arange (n_steps (self w))))
      = Ok time_points /\
    optional_field src "for_pattern_mask" idx (Ok gt_mask)
      = Ok for_pattern_mask /\
    optional_field src "cut_length" idx (zeros_long observed_data)
      = Ok cut_length /\
    if has_labels open_file mode (self w) && return_labels (self w)
    then exists y0 yi,
           data_y open_file mode (self w) = Some y0 /\
           getitem y0 idx = Ok yi /\
           s = fields ++ [to int64 yi] /\
           length s = 8%nat /\
           last s = Some (to int64 yi)
    else s = fields /\ length s = 7%nat.
Proof.
  intros HX _ HXi Hm H.
  destruct (fetch_data_run _ _ _ _ _ _ _ _ _ _ _ HX HXi Hm H)
    as (src & om & tp & fpm & cl & lbl & Hsrc & Hom & Htp & Hfpm & Hcl
        & Hlbl & -> & _).
  exists src, om, tp, fpm, cl. cbn zeta. repeat (split; [done|]).
  unfold label_spec in Hlbl.
  destruct (has_labels open_file mode (self w) && return_labels (self w)).
  - destruct Hlbl as (y0 & yi & Hy0 & Hyi & ->). by exists y0, yi.
  - by subst lbl.
Qed.

Lemma sample_layout_witness :
  (exists s,
     (fetch_data mcar_draws demo_fs InMemory 1 (World demo_array demo_draws)).1
       = Ok s /\
     length s = 8%nat /\ last s = Some (Tensor int64 [] [I 1])) /\
  (exists s,
     (fetch_data mcar_draws demo_fs FileBacked 1 (World demo_file demo_draws)).1
       = Ok s /\
     length s = 8%nat /\ last s = Some (Tensor int64 [] [I 1])) /\
  (exists s,
     (fetch_data mcar_draws demo_fs InMemory 1
        (World demo_array_cut demo_draws)).1 = Ok s /\
     length s = 7%nat).
Proof.
  split; [|split].
  - eexists. split; [vm_compute; reflexivity|].
    edestruct (sample_layout mcar_draws demo_fs InMemory 1
                 (World demo_array demo_draws))
      as (src & om & tp & fpm & cl & H);
      [reflexivity | vm_compute; split; [discriminate | reflexivity]
      | reflexivity | reflexivity | vm_compute; reflexivity | ].
    cbn zeta in H. destruct H as (_ & _ & _ & _ & _ & H).
    change (has_labels demo_fs InMemory (self (World demo_array demo_draws))
            && return_labels (self (World demo_array demo_draws)))
      with true in H.
    destruct H as (y0 & yi & Hy0 & Hyi & _ & Hlen & Hlast).
    split; [exact Hlen|]. rewrite Hlast. f_equal.
    vm_compute in Hy0. injection Hy0 as <-.
    vm_compute in Hyi. injection Hyi as <-. reflexivity.
  - eexists. split; [vm_compute; reflexivity|].
    edestruct (sample_layout mcar_draws demo_fs FileBacked 1
                 (World demo_file demo_draws))
      as (src & om & tp & fpm & cl & H);
      [reflexivity | vm_compute; split; [discriminate | reflexivity]
      | reflexivity | reflexivity | vm_compute; reflexivity | ].
    cbn zeta in H. destruct H as (_ & _ & _ & _ & _ & H).
    change (has_labels demo_fs FileBacked (self (World demo_file demo_draws))
            && return_labels (self (World demo_file demo_draws)))
      with true in H.
    destruct H as (y0 & yi & Hy0 & Hyi & _ & Hlen & Hlast).
    split; [exact Hlen|]. rewrite Hlast. f_equal.
    vm_compute in Hy0. injection Hy0 as <-.
    vm_compute in Hyi. injection Hyi as <-. reflexivity.
  - eexists. split; [vm_compute; reflexivity|].
    edestruct (sample_layout mcar_draws demo_fs InMemory 1
                 (World demo_array_cut demo_draws))
      as (src & om & tp & fpm & cl & H);
      [reflexivity | vm_compute; split; [discriminate | reflexivity]
      | reflexivity | reflexivity | vm_compute; reflexivity | ].
    cbn zeta in H. destruct H as (_ & _ & _ & _ & _ & H).
    change (has_labels demo_fs InMemory
              (self (World demo_array_cut demo_draws))
            && return_labels (self (World demo_array_cut demo_draws)))
      with false in H.
    exact (proj2 H).
Defined.

(** C6.  For an index in range, in both modes, when the source has no
    [for_pattern_mask] field, the [for_pattern_mask] of the sample is
    exactly its [gt_mask]. *)
Theorem for_pattern_mask_default {rng : Type} (mcar : masker rng)
    (open_file : string -> result h5file) (mode : storage_mode) (idx : Z)
    (w : world rng) X0 src s w' :
  data_X open_file mode (self w) = Ok X0 ->
  in_range X0 idx ->
  source_of open_file mode (self w) = Ok src ->
  src !! "for_pattern_mask" = None ->
  fetch_data mcar open_file mode idx w = (Ok s, w') ->
  exists m,
    s !! pos_gt_mask = Some m /\ s !! pos_for_pattern_mask = Some m.
Proof.
  intros _ _ Hsrc Hnone H.
  apply fetch_data_ok in H
    as (X0' & Xi & src' & om & tp & fpm & cl & lbl & H).
  cbn zeta in H.
  destruct H as (_ & _ & Hsrc' & _ & _ & Hfpm & _ & _ & -> & _).
  rewrite Hsrc in Hsrc'. simplify_eq.
  rewrite optional_field_absent in Hfpm by done. simplify_eq.
  eexists. split; reflexivity.
Qed.

Lemma for_pattern_mask_default_witness :
  (exists s m,
     (fetch_data mcar_draws demo_fs InMemory 0 (World demo_array demo_draws)).1
       = Ok s /\
     s !! pos_gt_mask = Some m /\ s !! pos_for_pattern_mask = Some m) /\
  (exists s m,
     (fetch_data mcar_draws demo_fs FileBacked 0 (World demo_file demo_draws)).1
       = Ok s /\
     s !! pos_gt_mask = Some m /\ s !! pos_for_pattern_mask = Some m).
Proof.
  split.
  - destruct (for_pattern_mask_default mcar_draws demo_fs InMemory 0
                (World demo_array demo_draws) demo_X
                {[ "X" := demo_X; "y" := demo_y ]}
                (match (fetch_data mcar_draws demo_fs InMemory 0
                          (World demo_array demo_draws)).1 with
                 | Ok s => s
                 | Raise _ => []
                 end)
                (fetch_data mcar_draws demo_fs InMemory 0
                   (World demo_array demo_draws)).2) as (m & H);
      [reflexivity | vm_compute; split; [discriminate | reflexivity]
      | reflexivity | vm_compute; reflexivity | vm_compute; reflexivity | ].
    eexists _, m. split; [vm_compute; reflexivity | exact H].
  - destruct (for_pattern_mask_default mcar_draws demo_fs FileBacked 0
                (World demo_file demo_draws) demo_X
                {[ "X" := demo_X; "y" := demo_y ]}
                (match (fetch_data mcar_draws demo_fs FileBacked 0
                          (World demo_file demo_draws)).1 with
                 | Ok s => s
                 | Raise _ => []
                 end)
                (fetch_data mcar_draws demo_fs FileBacked 0
                   (World demo_file demo_draws)).2) as (m & H);
      [reflexivity | vm_compute; split; [discriminate | reflexivity]
      | reflexivity | vm_compute; reflexivity | vm_compute; reflexivity | ].
    eexists _, m. split; [vm_compute; reflexivity | exact H].
Defined.

(** C7.  For an index in range, in both modes, when the source has no
    [time_points] field, the [time_points] of the sample is the float32
    sequence 0, 1, ..., [n_steps - 1]. *)
Theorem time_points_default {rng : Type} (mcar : masker rng)
    (open_file : string -> result h5file) (mode : storage_mode) (idx : Z)
    (w : world rng) X0 src s w' :
  data_X open_file mode (self w) = Ok X0 ->
  in_range X0 idx ->
  source_of open_file mode (self w) = Ok src ->
  src !! "time_points" = None ->
  fetch_data mcar open_file mode idx w = (Ok s, w') ->
  exists tp,
    s !! pos_time_points = Some tp /\
    t_dtype tp = float32 /\
    t_shape tp = [n_steps (self w)] /\
    length (t_data tp) = n_steps (self w) /\
    forall i : nat, (i < n_steps (self w))%nat ->
      t_data tp !! i = Some (F (float_of_Z 24 128 (Z.of_nat i))).
Proof.
  intros _ _ Hsrc Hnone H.
  apply fetch_data_ok in H
    as (X0' & Xi & src' & om & tp & fpm & cl & lbl & H).
  cbn zeta in H.
  destruct H as (_ & _ & Hsrc' & _ & Htp & _ & _ & _ & -> & _).
  rewrite Hsrc in Hsrc'. simplify_eq.
  rewrite optional_field_absent in Htp by done. simplify_eq.
  exists (arange (n_steps (self w))). cbn [arange t_dtype t_shape t_data].
  repeat split.
  - by rewrite length_fmap, length_seq.
  - intros i Hi. rewrite list_lookup_fmap, lookup_seq_lt by done. done.
Qed.

Lemma time_points_default_witness :
  (exists s tp,
     (fetch_data mcar_draws demo_fs InMemory 0 (World demo_array demo_draws)).1
       = Ok s /\
     s !! pos_time_points = Some tp /\ t_dtype tp = float32 /\
     t_data tp = [f32 0; f32 1; f32 2]) /\
  (exists s tp,
     (fetch_data mcar_draws demo_fs FileBacked 0 (World demo_file demo_draws)).1
       = Ok s /\
     s !! pos_time_points = Some tp /\ t_dtype tp = float32 /\
     t_data tp = [f32 0; f32 1; f32 2]).
Proof.
  split.
  - destruct (time_points_default mcar_draws demo_fs InMemory 0
                (World demo_array demo_draws) demo_X
                {[ "X" := demo_X; "y" := demo_y ]}
                (match (fetch_data mcar_draws demo_fs InMemory 0
                          (World demo_array demo_draws)).1 with
                 | Ok s => s
                 | Raise _ => []
                 end)
                (fetch_data mcar_draws demo_fs InMemory 0
                   (World demo_array demo_draws)).2)
      as (tp & Htp & Hd & _ & _ & _);
      [reflexivity | vm_compute; split; [discriminate | reflexivity]
      | reflexivity | vm_compute; reflexivity | vm_compute; reflexivity | ].
    eexists _, tp. split; [vm_compute; reflexivity|].
    split; [exact Htp|]. split; [exact Hd|].
    vm_compute in Htp. injection Htp as <-. reflexivity.
  - destruct (time_points_default mcar_draws demo_fs FileBacked 0
                (World demo_file demo_draws) demo_X
                {[ "X" := demo_X; "y" := demo_y ]}
                (match (fetch_data mcar_draws demo_fs FileBacked 0
                          (World demo_file demo_draws)).1 with
                 | Ok s => s
                 | Raise _ => []
                 end)
                (fetch_data mcar_draws demo_fs FileBacked 0
                   (World demo_file demo_draws)).2)
      as (tp & Htp & Hd & _ & _ & _);
      [reflexivity | vm_compute; split; [discriminate | reflexivity]
      | reflexivity | vm_compute; reflexivity | vm_compute; reflexivity | ].
    eexists _, tp. split; [vm_compute; reflexivity|].
    split; [exact Htp|]. split; [exact Hd|].
    vm_compute in Htp. injection Htp as <-. reflexivity.
Defined.

(** ** What a fetch does to the object *)

Section Frame.

Context {rng : Type}.
Variable mcar : masker rng.
Variable open_file : string -> result h5file.



(** An index that cannot be read selects no sample. *)
Lemma fetch_data_none mode idx (w : world rng) X0 e :
  data_X open_file mode (self w) = Ok X0 ->
  read_row mode X0 idx = Raise e ->
  fetch_data mcar open_file mode idx w
  = (Raise e, World (after_fetch open_file mode (self w)) (rnd w)).
Proof.
  intros HX Hget.
  destruct mode; cbn [fetch_data data_X after_fetch read_row] in *.
  - rewrite fetch_array_eq.
    destruct (X (self w)) as [X0'|]; [|done]. simplify_eq.
    rewrite Hget. by destruct w.
  - rewrite fetch_file_eq.
    destruct (handle_for open_file (self w)) as [h|]; [|done].
    cbn [result_bind] in HX. cbn zeta. rewrite HX. cbn [result_bind].
    by rewrite Hget.
Qed.

Lemma handle_for_with_handle h ds :
  handle_for open_file ds = Ok h ->
  handle_for open_file (with_handle h ds) = Ok h.
Proof.
  unfold handle_for, with_handle.
  destruct (file_handle ds) as [h'|] eqn:Hfh; [by rewrite Hfh|done].
Qed.



End Frame.






(** C10.  In both modes the artificially masked series the masker returns
    is dropped.  [observed_data] is the intact series, and the fetch does
    not depend on the masked one: two maskers that differ only in it give
    the same outcome. *)
Theorem masked_series_discarded {rng : Type} (mcar1 mcar2 : masker rng)
    (open_file : string -> result h5file) (mode : storage_mode) (idx : Z)
    (w : world rng) X0 Xi out1 out2 g :
  data_X open_file mode (self w) = Ok X0 ->
  getitem X0 idx = Ok Xi ->
  mcar1 (to float32 Xi) (rate (self w)) (rnd w) = (out1, g) ->
  mcar2 (to float32 Xi) (rate (self w)) (rnd w) = (out2, g) ->
  X_intact_of out1 = X_intact_of out2 ->
  missing_mask_of out1 = missing_mask_of out2 ->
  indicating_mask_of out1 = indicating_mask_of out2 ->
  fetch_data mcar1 open_file mode idx w = fetch_data mcar2 open_file mode idx w /\
  forall s w',
    fetch_data mcar1 open_file mode idx w = (Ok s, w') ->
    s !! pos_observed_data = Some (X_intact_of out1).
Proof.
  intros HX HXi H1 H2 Hxi Hmm Him. split.
  - destruct mode; cbn [fetch_data data_X] in *.
    + rewrite !fetch_array_eq.
      destruct (X (self w)) as [X0'|]; [|done]. simplify_eq.
      destruct (tensor_getitem X0 idx) as [Xi'|] eqn:HXi'; [|done].
      apply tensor_getitem_ok in HXi' as [HXi' _].
      rewrite HXi in HXi'. simplify_eq.
      cbn zeta. rewrite H1, H2. cbn [fst snd].
      unfold assemble. by rewrite Hxi, Hmm, Him.
    + rewrite !fetch_file_eq.
      destruct (handle_for open_file (self w)) as [h|]; [|done].
      cbn [result_bind] in HX. cbn zeta. rewrite HX. cbn [result_bind].
      rewrite HXi. cbn [result_bind].
      destruct (from_numpy Xi) as [X1|] eqn:HX1; [|done].
      apply from_numpy_ok in HX1 as ->. rewrite H1, H2. cbn [fst snd].
      unfold assemble. by rewrite Hxi, Hmm, Him.
  - intros s w' H.
    destruct (fetch_data_run _ _ _ _ _ _ _ _ _ _ _ HX HXi H1 H)
      as (src & om & tp & fpm & cl & lbl & _ & _ & _ & _ & _ & _ & -> & _).
    done.
Qed.

Lemma masked_series_discarded_witness :
  X_masked_of (mcar_draws (Tensor float32 [3; 2]%nat
                 [f32 1; f32 2; F S754_nan; f32 4; f32 5; f32 6])
                 demo_rate demo_draws).1
  <> X_masked_of (mcar_draws_blank (Tensor float32 [3; 2]%nat
                 [f32 1; f32 2; F S754_nan; f32 4; f32 5; f32 6])
                 demo_rate demo_draws).1 /\
  fetch_data mcar_draws demo_fs InMemory 0 (World demo_array demo_draws)
  = fetch_data mcar_draws_blank demo_fs InMemory 0
      (World demo_array demo_draws) /\
  fetch_data mcar_draws demo_fs FileBacked 0 (World demo_file demo_draws)
  = fetch_data mcar_draws_blank demo_fs FileBacked 0
      (World demo_file demo_draws).
Proof.
  split; [vm_compute; discriminate|]. split.
  - eapply (masked_series_discarded mcar_draws mcar_draws_blank demo_fs
              InMemory 0 (World demo_array demo_draws));
      vm_compute; reflexivity.
  - eapply (masked_series_discarded mcar_draws mcar_draws_blank demo_fs
              FileBacked 0 (World demo_file demo_draws));
      vm_compute; reflexivity.
Defined.

(** ** The observed mask *)

Section ObservedMask.

Lemma zip_with_binary d da db (la lb : list scalar) :
  (d = da \/ d = db) ->
  (is_floating da = false -> d = db) ->
  (is_floating db = false -> d = da) ->
  Forall (binary_in da) la ->
  Forall (binary_in db) lb ->
  Forall2 (fun u v => is_one u && is_one v = false) la lb ->
  zip_with (add_scalar d) la lb = zip_with (or_scalar d) la lb /\
  Forall (binary_in d) (zip_with (add_scalar d) la lb).
Proof.
  intros Hd Ha Hb Hla Hlb Hdis. revert Hla Hlb.
  induction Hdis as [|u v la lb Huv Hdis IH]; intros Hla Hlb; [done|].
  apply Forall_cons in Hla as [Hu Hla]. apply Forall_cons in Hlb as [Hv Hlb].
  destruct (IH Hla Hlb) as [IH1 IH2].
  destruct (add_scalar_binary d da db u v Hu Hv Huv Hd Ha Hb) as [E B].
  cbn [zip_with]. split; [by rewrite E, IH1 | by constructor].
Qed.

(** The sum of two binary, disjoint masks of one shape. *)
Lemma add_binary_disjoint (a b : tensor) :
  t_shape a = t_shape b -> well_shaped a -> well_shaped b ->
  binary_mask a -> binary_mask b -> disjoint_masks a b ->
  exists om,
    add a b = Ok om /\
    t_shape om = t_shape a /\
    t_data om = zip_with (add_scalar (t_dtype om)) (t_data a) (t_data b) /\
    t_data om = zip_with (or_scalar (t_dtype om)) (t_data a) (t_data b) /\
    binary_mask om.
Proof.
  intros Hs Ha Hb Hba Hbb Hdis.
  eexists. split; [by apply add_same_shape|].
  destruct (result_type_cases a b) as (Hd & Hfa & Hfb).
  destruct (zip_with_binary (result_type a b) (t_dtype a) (t_dtype b)
              (t_data a) (t_data b) Hd Hfa Hfb Hba Hbb Hdis) as [E B].
  unfold binary_mask. cbn [t_shape t_data t_dtype]. by rewrite <- E.
Qed.

End ObservedMask.

(** C3.  For an index in range, in both modes, when the masks the masker
    returns are binary and disjoint (and, as the masker promises, of one
    shape), [observed_mask] is their pointwise sum; that sum is their
    pointwise logical OR and each of its entries is 0 or 1. *)
Theorem observed_mask_is_or {rng : Type} (mcar : masker rng)
    (open_file : string -> result h5file) (mode : storage_mode) (idx : Z)
    (w : world rng) X0 Xi out g s w' :
  data_X open_file mode (self w) = Ok X0 ->
  in_range X0 idx ->
  getitem X0 idx = Ok Xi ->
  mcar (to float32 Xi) (rate (self w)) (rnd w) = (out, g) ->
  t_shape (missing_mask_of out) = t_shape (indicating_mask_of out) ->
  well_shaped (missing_mask_of out) ->
  well_shaped (indicating_mask_of out) ->
  binary_mask (missing_mask_of out) ->
  binary_mask (indicating_mask_of out) ->
  disjoint_masks (missing_mask_of out) (indicating_mask_of out) ->
  fetch_data mcar open_file mode idx w = (Ok s, w') ->
  exists observed_mask,
    s !! pos_observed_mask = Some observed_mask /\
    t_shape observed_mask = t_shape (missing_mask_of out) /\
    t_data observed_mask =
      zip_with (add_scalar (t_dtype observed_mask))
        (t_data (missing_mask_of out)) (t_data (indicating_mask_of out)) /\
    t_data observed_mask =
      zip_with (or_scalar (t_dtype observed_mask))
        (t_data (missing_mask_of out)) (t_data (indicating_mask_of out)) /\
    binary_mask observed_mask.
Proof.
  intros HX _ HXi Hm Hs Hwa Hwb Hba Hbb Hdis H.
  destruct (fetch_data_run _ _ _ _ _ _ _ _ _ _ _ HX HXi Hm H)
    as (src & om & tp & fpm & cl & lbl & _ & Hom & _ & _ & _ & _ & -> & _).
  destruct (add_binary_disjoint _ _ Hs Hwa Hwb Hba Hbb Hdis)
    as (om' & Hom' & H').
  rewrite Hom in Hom'. simplify_eq. by exists om'.
Qed.

Lemma observed_mask_is_or_witness :
  (exists s om,
     (fetch_data mcar_draws demo_fs InMemory 0 (World demo_array demo_draws)).1
       = Ok s /\
     s !! pos_observed_mask = Some om /\
     t_data om = flag <$> [true; true; false; true; true; true] /\
     binary_mask om) /\
  (exists s om,
     (fetch_data mcar_draws demo_fs FileBacked 0 (World demo_file demo_draws)).1
       = Ok s /\
     s !! pos_observed_mask = Some om /\
     t_data om = flag <$> [true; true; false; true; true; true] /\
     binary_mask om).
Proof.
  split.
  - edestruct (observed_mask_is_or mcar_draws demo_fs InMemory 0
                 (World demo_array demo_draws))
      as (om & Hom & _ & _ & Hor & Hbin);
      [reflexivity | vm_compute; split; [discriminate | reflexivity]
      | reflexivity | reflexivity | reflexivity | reflexivity | reflexivity
      | vm_compute; repeat constructor; ((by left) || (by right))
      | vm_compute; repeat constructor; ((by left) || (by right))
      | vm_compute; repeat constructor
      | vm_compute; reflexivity | ].
    eexists _, om. split; [vm_compute; reflexivity|].
    split; [exact Hom|]. split; [|exact Hbin].
    rewrite Hor. vm_compute in Hom. injection Hom as <-. reflexivity.
  - edestruct (observed_mask_is_or mcar_draws demo_fs FileBacked 0
                 (World demo_file demo_draws))
      as (om & Hom & _ & _ & Hor & Hbin);
      [reflexivity | vm_compute; split; [discriminate | reflexivity]
      | reflexivity | reflexivity | reflexivity | reflexivity | reflexivity
      | vm_compute; repeat constructor; ((by left) || (by right))
      | vm_compute; repeat constructor; ((by left) || (by right))
      | vm_compute; repeat constructor
      | vm_compute; reflexivity | ].
    eexists _, om. split; [vm_compute; reflexivity|].
    split; [exact Hom|]. split; [|exact Hbin].
    rewrite Hor. vm_compute in Hom. injection Hom as <-. reflexivity.
Defined.

(** ** Fields that do not depend on the masker *)

Section StableFields.

Variable open_file : string -> result h5file.

Lemma data_X_after_fetch mode ds X0 :
  data_X open_file mode ds = Ok X0 ->
  data_X open_file mode (after_fetch open_file mode ds) = Ok X0.
Proof.
  destruct mode; cbn [data_X after_fetch]; [done|].
  destruct (handle_for open_file ds) as [h|] eqn:Hh; [|done].
  by rewrite (handle_for_with_handle _ _ _ Hh).
Qed.

Lemma source_of_after_fetch mode ds src :
  source_of open_file mode ds = Ok src ->
  source_of open_file mode (after_fetch open_file mode ds) = Ok src.
Proof.
  destruct mode; cbn [source_of after_fetch]; [done|].
  destruct (handle_for open_file ds) as [h|] eqn:Hh; [|done].
  by rewrite (handle_for_with_handle _ _ _ Hh).
Qed.

Lemma after_fetch_attrs mode ds :
  rate (after_fetch open_file mode ds) = rate ds /\
  n_steps (after_fetch open_file mode ds) = n_steps ds.
Proof.
  destruct mode; cbn [after_fetch]; [done|].
  destruct (handle_for open_file ds); [|done].
  unfold with_handle. by destruct (file_handle ds).
Qed.

Lemma zeros_long_shape a b :
  t_shape a = t_shape b -> zeros_long a = zeros_long b.
Proof. unfold zeros_long, len. by intros ->. Qed.

Lemma zeros_long_ok a cl :
  zeros_long a = Ok cl ->
  exists n, len a = Ok n /\ cl = Tensor int64 [n] (replicate n (I 0)).
Proof.
  unfold zeros_long. intros H. apply result_bind_ok in H as (n & Hn & H).
  exists n. split; [done|]. simplify_eq.
  unfold long, to, zeros. cbn. by rewrite fmap_replicate.
Qed.

Lemma to_dtype d t : t_dtype (to d t) = d.
Proof.
  unfold to. destruct (dtype_eqb (t_dtype t) d) eqn:E; [|done].
  by destruct (t_dtype t), d.
Qed.

Lemma load_float32_dtype src key idx t :
  load_float32 src key idx = Ok t -> t_dtype t = float32.
Proof.
  unfold load_float32. intros H.
  apply result_bind_ok in H as (a & _ & H).
  apply result_bind_ok in H as (row & _ & H).
  apply result_bind_ok in H as (t' & _ & H).
  simplify_eq. apply to_dtype.
Qed.

End StableFields.

(** C4, as the code has it.  Two fetches of one index, in either mode and
    whatever the state of the random generator at the second, agree on
    [time_points] and, the masker returning intact series of one shape, on
    [cut_length]; they agree on [for_pattern_mask] when the source has that
    field.  Without the field, [for_pattern_mask] is the [gt_mask] of each
    fetch, a mask the masker drew. *)
Theorem two_fetches_agree {rng : Type} (mcar : masker rng)
    (open_file : string -> result h5file) (mode : storage_mode) (idx : Z)
    (w : world rng) (g2 : rng) X0 Xi src out1 g1 out2 g2' s1 w1 s2 w2 :
  data_X open_file mode (self w) = Ok X0 ->
  in_range X0 idx ->
  getitem X0 idx = Ok Xi ->
  source_of open_file mode (self w) = Ok src ->
  mcar (to float32 Xi) (rate (self w)) (rnd w) = (out1, g1) ->
  mcar (to float32 Xi) (rate (self w)) g2 = (out2, g2') ->
  t_shape (X_intact_of out1) = t_shape (X_intact_of out2) ->
  fetch_data mcar open_file mode idx w = (Ok s1, w1) ->
  fetch_data mcar open_file mode idx (World (self w1) g2) = (Ok s2, w2) ->
  s1 !! pos_time_points = s2 !! pos_time_points /\
  s1 !! pos_cut_length = s2 !! pos_cut_length /\
  (is_Some (src !! "for_pattern_mask") ->
   s1 !! pos_for_pattern_mask = s2 !! pos_for_pattern_mask) /\
  (src !! "for_pattern_mask" = None ->
   s1 !! pos_for_pattern_mask = Some (gt_mask_of mode out1) /\
   s2 !! pos_for_pattern_mask = Some (gt_mask_of mode out2)).
Proof.
  intros HX _ HXi Hsrc Hm1 Hm2 Hshape H1 H2.
  destruct (fetch_data_run _ _ _ _ _ _ _ _ _ _ _ HX HXi Hm1 H1)
    as (src1 & om1 & tp1 & fpm1 & cl1 & lbl1 & Hsrc1 & _ & Htp1 & Hfpm1
        & Hcl1 & _ & -> & ->).
  cbn [self] in H2.
  destruct (after_fetch_attrs open_file mode (self w)) as [Hrate Hsteps].
  assert (mcar (to float32 Xi)
            (rate (self (World (after_fetch open_file mode (self w)) g2)))
            (rnd (World (after_fetch open_file mode (self w)) g2))
          = (out2, g2')) as Hm2'.
  { cbn [self rnd]. by rewrite Hrate. }
  destruct (fetch_data_run mcar open_file mode idx
              (World (after_fetch open_file mode (self w)) g2)
              X0 Xi out2 g2' s2 w2
              (data_X_after_fetch open_file mode _ _ HX) HXi Hm2' H2)
    as (src2 & om2 & tp2 & fpm2 & cl2 & lbl2 & Hsrc2 & _ & Htp2 & Hfpm2
        & Hcl2 & _ & -> & _).
  cbn [self] in *. rewrite Hsteps in Htp2.
  rewrite (source_of_after_fetch open_file mode _ _ Hsrc) in Hsrc2.
  rewrite Hsrc in Hsrc1. simplify_eq.
  assert (cl1 = cl2) as ->.
  { unfold optional_field in Hcl1, Hcl2.
    rewrite (zeros_long_shape _ _ Hshape) in Hcl1. congruence. }
  assert (tp1 = tp2) as -> by congruence.
  split; [done|]. split; [done|]. split.
  - intros [a Ha].
    rewrite (optional_field_present _ _ _ _ _ Ha) in Hfpm1.
    rewrite (optional_field_present _ _ _ _ _ Ha) in Hfpm2.
    cbn. congruence.
  - intros Hnone.
    rewrite optional_field_absent in Hfpm1 by done.
    rewrite optional_field_absent in Hfpm2 by done.
    by simplify_eq.
Qed.

Lemma two_fetches_agree_witness :
  exists s1 w1 s2 w2,
    fetch_data mcar_draws demo_fs FileBacked 1 (World demo_file demo_draws)
      = (Ok s1, w1) /\
    fetch_data mcar_draws demo_fs FileBacked 1 (World (self w1) (rnd w1))
      = (Ok s2, w2) /\
    s1 !! pos_time_points = s2 !! pos_time_points /\
    s1 !! pos_cut_length = s2 !! pos_cut_length.
Proof.
  eexists _, _, _, _.
  split; [vm_compute; reflexivity|]. split; [vm_compute; reflexivity|].
  edestruct (two_fetches_agree mcar_draws demo_fs FileBacked 1
               (World demo_file demo_draws) (tl demo_draws))
    as (Htp & Hcl & _);
    [ reflexivity | vm_compute; split; [discriminate | reflexivity]
    | reflexivity | reflexivity | reflexivity | reflexivity | reflexivity
    | vm_compute; reflexivity | vm_compute; reflexivity | ].
  split; [exact Htp | exact Hcl].
Defined.

(** C4, as stated, fails: without a [for_pattern_mask] field, two fetches of
    one index return different [for_pattern_mask]s as soon as the masker
    hides different positions, in both modes. *)
Lemma two_fetches_for_pattern_mask_differ :
  (exists s1 w1 s2 w2,
     in_range demo_X 0 /\
     source_of demo_fs InMemory demo_array
       = Ok {[ "X" := demo_X; "y" := demo_y ]} /\
     ({[ "X" := demo_X; "y" := demo_y ]} : gmap string tensor)
       !! "for_pattern_mask" = None /\
     fetch_data mcar_draws demo_fs InMemory 0 (World demo_array demo_draws)
       = (Ok s1, w1) /\
     fetch_data mcar_draws demo_fs InMemory 0 w1 = (Ok s2, w2) /\
     s1 !! pos_for_pattern_mask <> s2 !! pos_for_pattern_mask) /\
  (exists s1 w1 s2 w2,
     in_range demo_X 0 /\
     source_of demo_fs FileBacked demo_file
       = Ok {[ "X" := demo_X; "y" := demo_y ]} /\
     fetch_data mcar_draws demo_fs FileBacked 0 (World demo_file demo_draws)
       = (Ok s1, w1) /\
     fetch_data mcar_draws demo_fs FileBacked 0 w1 = (Ok s2, w2) /\
     s1 !! pos_for_pattern_mask <> s2 !! pos_for_pattern_mask).
Proof.
  split.
  - eexists _, _, _, _.
    split; [vm_compute; split; [discriminate | reflexivity]|].
    split; [reflexivity|]. split; [vm_compute; reflexivity|].
    split; [vm_compute; reflexivity|]. split; [vm_compute; reflexivity|].
    vm_compute. discriminate.
  - eexists _, _, _, _.
    split; [vm_compute; split; [discriminate | reflexivity]|].
    split; [reflexivity|].
    split; [vm_compute; reflexivity|]. split; [vm_compute; reflexivity|].
    vm_compute. discriminate.
Qed.

(** C5, as the code has it.  Without a [cut_length] field both modes return
    int64 zeros, one per row of [observed_data] (the steps of the series,
    when the masker keeps the shape of its input).  With the field, both
    modes cast the row to float32. *)
Theorem cut_length_dtype {rng : Type} (mcar : masker rng)
    (open_file : string -> result h5file) (mode : storage_mode) (idx : Z)
    (w : world rng) X0 Xi src out g s w' :
  data_X open_file mode (self w) = Ok X0 ->
  in_range X0 idx ->
  getitem X0 idx = Ok Xi ->
  source_of open_file mode (self w) = Ok src ->
  mcar (to float32 Xi) (rate (self w)) (rnd w) = (out, g) ->
  fetch_data mcar open_file mode idx w = (Ok s, w') ->
  exists cl,
    s !! pos_cut_length = Some cl /\
    (src !! "cut_length" = None ->
     exists n,
       len (X_intact_of out) = Ok n /\
       (t_shape (X_intact_of out) = t_shape Xi -> len Xi = Ok n) /\
       cl = Tensor int64 [n] (replicate n (I 0))) /\
    (is_Some (src !! "cut_length") ->
     load_float32 src "cut_length" idx = Ok cl /\ t_dtype cl = float32).
Proof.
  intros HX _ HXi Hsrc Hm H.
  destruct (fetch_data_run _ _ _ _ _ _ _ _ _ _ _ HX HXi Hm H)
    as (src' & om & tp & fpm & cl & lbl & Hsrc' & _ & _ & _ & Hcl & _ & -> & _).
  rewrite Hsrc in Hsrc'. simplify_eq.
  exists cl. split; [done|]. split.
  - intros Hnone. rewrite optional_field_absent in Hcl by done.
    apply zeros_long_ok in Hcl as (n & Hn & ->).
    exists n. split; [done|]. split; [|done].
    intros Hshape. unfold len in *. by rewrite <- Hshape.
  - intros [a Ha]. rewrite (optional_field_present _ _ _ _ _ Ha) in Hcl.
    split; [done|]. by eapply load_float32_dtype.
Qed.

Lemma cut_length_dtype_witness :
  (exists s cl,
     (fetch_data mcar_draws demo_fs FileBacked 0 (World demo_file demo_draws)).1
       = Ok s /\
     s !! pos_cut_length = Some cl /\
     cl = Tensor int64 [3%nat] [I 0; I 0; I 0]) /\
  (exists s cl,
     (fetch_data mcar_draws demo_fs InMemory 0
        (World demo_array_cut demo_draws)).1 = Ok s /\
     s !! pos_cut_length = Some cl /\ t_dtype cl = float32).
Proof.
  split.
  - edestruct (cut_length_dtype mcar_draws demo_fs FileBacked 0
                 (World demo_file demo_draws))
      as (cl & Hcl & Habsent & _);
      [ reflexivity | vm_compute; split; [discriminate | reflexivity]
      | reflexivity | reflexivity | reflexivity | vm_compute; reflexivity | ].
    eexists _, cl. split; [vm_compute; reflexivity|]. split; [exact Hcl|].
    destruct Habsent as (n & Hn & _ & ->); [vm_compute; reflexivity|].
    vm_compute in Hn. injection Hn as <-. reflexivity.
  - edestruct (cut_length_dtype mcar_draws demo_fs InMemory 0
                 (World demo_array_cut demo_draws))
      as (cl & Hcl & _ & Hpresent);
      [ reflexivity | vm_compute; split; [discriminate | reflexivity]
      | reflexivity | reflexivity | reflexivity | vm_compute; reflexivity | ].
    eexists _, cl. split; [vm_compute; reflexivity|]. split; [exact Hcl|].
    apply Hpresent. vm_compute. eexists. reflexivity.
Defined.

(** C5, as stated, fails: with a [cut_length] field of integers the
    in-memory method returns it as float32, not as an integer type. *)
Lemma cut_length_in_memory_is_float :
  exists s cl,
    in_range demo_X 0 /\
    source_of demo_fs InMemory demo_array_cut
      = Ok {[ "X" := demo_X; "cut_length" := demo_cut_length ]} /\
    t_dtype demo_cut_length = int64 /\
    fetch_data mcar_draws demo_fs InMemory 0 (World demo_array_cut demo_draws)
      = (Ok s, World demo_array_cut (tl demo_draws)) /\
    s !! pos_cut_length = Some cl /\
    t_dtype cl = float32 /\
    is_floating (t_dtype cl) = true /\
    cl = Tensor float32 [3%nat] [f32 0; f32 0; f32 1].
Proof.
  eexists _, _.
  split; [vm_compute; split; [discriminate | reflexivity]|].
  split; [reflexivity|]. split; [reflexivity|].
  split; [vm_compute; reflexivity|].
  split; [vm_compute; reflexivity|].
  repeat split.
Qed.

(** ** Negative indices *)

Section NegativeIndex.

Variable open_file : string -> result h5file.

(** [a[idx - n]] is [a[idx]] for an array of [n] rows. *)
Lemma getitem_wrap a idx :
  in_range a idx ->
  getitem a (idx - Z.of_nat (n_samples a)) = getitem a idx.
Proof.
  unfold in_range, n_samples, getitem. destruct (t_shape a) as [|d sh].
  - cbn. lia.
  - intros H.
    replace (idx - Z.of_nat d) with (idx + (-1) * Z.of_nat d) by lia.
    rewrite Z_mod_plus_full.
    destruct (Z.leb_spec (- Z.of_nat d) (idx + -1 * Z.of_nat d)); [|lia].
    destruct (Z.ltb_spec (idx + -1 * Z.of_nat d) (Z.of_nat d)); [|lia].
    destruct (Z.leb_spec (- Z.of_nat d) idx); [|lia].
    destruct (Z.ltb_spec idx (Z.of_nat d)); [done|lia].
Qed.

(** The same for a torch tensor, whose index must fit in 64 bits. *)
Lemma tensor_getitem_wrap a idx :
  in_range a idx ->
  idx <= int64_max ->
  int64_min <= idx - Z.of_nat (n_samples a) ->
  tensor_getitem a (idx - Z.of_nat (n_samples a)) = tensor_getitem a idx.
Proof.
  intros Hin Hmax Hmin. pose proof Hin as [H0 Hn].
  rewrite (tensor_getitem_int64 a idx) by (unfold int64_min; lia).
  rewrite <- (getitem_wrap a idx Hin). unfold tensor_getitem.
  change (n_rows a) with (n_samples a).
  destruct (Z.leb_spec int64_min (idx - Z.of_nat (n_samples a))); [|lia].
  destruct (Z.leb_spec (idx - Z.of_nat (n_samples a)) int64_max); [|lia].
  cbn [negb andb].
  destruct (Z.eqb_spec (idx - Z.of_nat (n_samples a)) int64_min) as [E|];
    [|done].
  destruct (Z.leb_spec (Z.of_nat (n_samples a)) int64_max); [|done].
  unfold int64_min, int64_max in *. lia.
Qed.

Lemma load_float32_wrap src key idx n :
  0 <= idx < Z.of_nat n ->
  (forall a, src !! key = Some a -> n_samples a = n) ->
  load_float32 src key (idx - Z.of_nat n) = load_float32 src key idx.
Proof.
  intros Hidx Hn. unfold load_float32, subscript.
  destruct (src !! key) as [a|] eqn:Ha; [|done]. cbn [result_bind].
  rewrite <- (Hn a eq_refl), getitem_wrap; [done|].
  unfold in_range. by rewrite (Hn a eq_refl).
Qed.

Lemma optional_field_wrap src key idx n default :
  0 <= idx < Z.of_nat n ->
  (forall a, src !! key = Some a -> n_samples a = n) ->
  optional_field src key (idx - Z.of_nat n) default
  = optional_field src key idx default.
Proof.
  intros Hidx Hn. unfold optional_field.
  by rewrite (load_float32_wrap _ _ _ _ Hidx Hn).
Qed.

Lemma assemble_wrap src steps idx n out gt lbl lbl' s :
  0 <= idx < Z.of_nat n ->
  int64_min <= idx - Z.of_nat n ->
  (forall d key a, src = Ok d -> key ∈ optional_keys ->
                   d !! key = Some a -> n_samples a = n) ->
  lbl' = lbl ->
  assemble src steps idx out gt lbl = Ok s ->
  assemble src steps (idx - Z.of_nat n) out gt lbl'
  = Ok (<[0%nat := Tensor int64 [] [I (idx - Z.of_nat n)]]> s).
Proof.
  intros Hidx Hmin Hn -> H.
  apply assemble_ok in H
    as (om & d & tp & fpm & cl & l & Hom & -> & Htp & Hfpm & Hcl & Hi & -> & ->).
  unfold assemble. rewrite Hom. cbn [result_bind].
  assert (forall key default, key ∈ optional_keys ->
            optional_field d key (idx - Z.of_nat n) default
            = optional_field d key idx default) as Hopt.
  { intros key default Hkey. apply optional_field_wrap; [done|].
    intros a Ha. by eapply (Hn d). }
  rewrite !Hopt by (unfold optional_keys; repeat constructor).
  rewrite Htp. cbn [result_bind]. rewrite Hfpm. cbn [result_bind].
  rewrite Hcl. cbn [result_bind].
  unfold tensor_of_int, int64_max in *.
  destruct (Z.leb_spec int64_min idx); [|done].
  destruct (Z.leb_spec idx (2 ^ 63 - 1)); [|done].
  destruct (Z.leb_spec int64_min (idx - Z.of_nat n)); [|lia].
  destruct (Z.leb_spec (idx - Z.of_nat n) (2 ^ 63 - 1)); [done|lia].
Qed.

End NegativeIndex.

(** X1.  Indices count from the end when negative.  In a dataset of [n]
    samples whose optional fields and labels have [n] rows too, fetching
    [idx - n] for [idx] in range returns the sample of [idx], except that
    its first element is the index as given, [idx - n]. *)
Theorem fetch_negative_index {rng : Type} (mcar : masker rng)
    (open_file : string -> result h5file) (mode : storage_mode) (idx : Z)
    (w : world rng) X0 src s w' :
  data_X open_file mode (self w) = Ok X0 ->
  in_range X0 idx ->
  int64_min <= idx - Z.of_nat (n_samples X0) ->
  source_of open_file mode (self w) = Ok src ->
  (forall key a, key ∈ optional_keys -> src !! key = Some a ->
                 n_samples a = n_samples X0) ->
  (forall y0, data_y open_file mode (self w) = Some y0 ->
              n_samples y0 = n_samples X0) ->
  fetch_data mcar open_file mode idx w = (Ok s, w') ->
  fetch_data mcar open_file mode (idx - Z.of_nat (n_samples X0)) w
  = (Ok (<[0%nat := Tensor int64 [] [I (idx - Z.of_nat (n_samples X0))]]> s),
     w').
Proof.
  intros HX Hin Hmin Hsrc Hkeys Hy H.
  pose proof (getitem_wrap X0 idx Hin) as Hwrap.
  assert (0 <= idx < Z.of_nat (n_samples X0)) as Hidx by exact Hin.
  destruct mode; cbn [fetch_data data_X source_of data_y] in *.
  - rewrite fetch_array_eq in *.
    destruct (X (self w)) as [X0'|]; [|done]. simplify_eq.
    destruct (tensor_getitem X0 idx) as [Xi|] eqn:HXi; [|done].
    pose proof (tensor_getitem_ok _ _ _ HXi) as [_ [_ Hmax]].
    rewrite (tensor_getitem_wrap X0 idx Hin Hmax Hmin), HXi.
    cbn zeta in *.
    destruct (assemble _ _ idx _ _ _) as [s0|] eqn:Hs; [|done].
    simplify_eq.
    erewrite assemble_wrap; [done|done|done| | |exact Hs].
    + intros d key a Hd. rewrite Hsrc in Hd. simplify_eq. apply Hkeys.
    + unfold array_label. destruct (y (self w)) as [y0|]; [|done].
      rewrite <- (Hy y0 eq_refl) in Hmin |- *.
      rewrite tensor_getitem_wrap; [done| |done|done].
      unfold in_range. by rewrite (Hy y0 eq_refl).
  - rewrite fetch_file_eq in *.
    destruct (handle_for open_file (self w)) as [h|]; [|done].
    cbn [result_bind] in HX, Hsrc. cbn zeta in *. simplify_eq.
    rewrite HX in *. cbn [result_bind] in *.
    rewrite Hwrap. destruct (getitem X0 idx) as [Xi|]; [|done].
    cbn [result_bind] in *. destruct (from_numpy Xi) as [X1|]; [|done].
    destruct (assemble _ _ idx _ _ _) as [s0|] eqn:Hs; [|done].
    simplify_eq.
    erewrite assemble_wrap; [done|done|done| | |exact Hs].
    + intros d key a Hd. simplify_eq. apply Hkeys.
    + unfold file_label, subscript.
      destruct (has_key (h5_items h) "y" && return_labels (self w)); [|done].
      destruct (h5_items h !! "y") as [y0|]; [|done]. cbn [result_bind].
      rewrite <- (Hy y0 eq_refl), getitem_wrap; [done|].
      unfold in_range. by rewrite (Hy y0 eq_refl).
Qed.

Lemma fetch_negative_index_witness :
  (exists s w',
     fetch_data mcar_draws demo_fs_more InMemory 1
       (World demo_array_full demo_draws) = (Ok s, w') /\
     fetch_data mcar_draws demo_fs_more InMemory (-1)
       (World demo_array_full demo_draws)
     = (Ok (<[0%nat := Tensor int64 [] [I (-1)]]> s), w')) /\
  (exists s w',
     fetch_data mcar_draws demo_fs_more FileBacked 0
       (World demo_file_full demo_draws) = (Ok s, w') /\
     fetch_data mcar_draws demo_fs_more FileBacked (-2)
       (World demo_file_full demo_draws)
     = (Ok (<[0%nat := Tensor int64 [] [I (-2)]]> s), w')).
Proof.
  split.
  - eexists _, _. split; [vm_compute; reflexivity|].
    apply (fetch_negative_index mcar_draws demo_fs_more InMemory 1
             (World demo_array_full demo_draws) demo_X demo_full_items);
      [ reflexivity | vm_compute; split; [discriminate | reflexivity]
      | vm_compute; discriminate | reflexivity | | | vm_compute; reflexivity ].
    + intros key a Hkey Ha. unfold optional_keys in Hkey.
      repeat (apply elem_of_cons in Hkey as [-> | Hkey];
              [vm_compute in Ha; injection Ha as <-; reflexivity|]).
      by apply elem_of_nil in Hkey.
    + intros y0 Hy0. vm_compute in Hy0. injection Hy0 as <-. reflexivity.
  - eexists _, _. split; [vm_compute; reflexivity|].
    apply (fetch_negative_index mcar_draws demo_fs_more FileBacked 0
             (World demo_file_full demo_draws) demo_X demo_full_items);
      [ reflexivity | vm_compute; split; [discriminate | reflexivity]
      | vm_compute; discriminate | reflexivity | | | vm_compute; reflexivity ].
    + intros key a Hkey Ha. unfold optional_keys in Hkey.
      repeat (apply elem_of_cons in Hkey as [-> | Hkey];
              [vm_compute in Ha; injection Ha as <-; reflexivity|]).
      by apply elem_of_nil in Hkey.
    + intros y0 Hy0. vm_compute in Hy0. injection Hy0 as <-. reflexivity.
Defined.

(** ** What a source must look like for a sample to come back *)

Section Shapes.

Lemma getitem_shape a idx row :
  getitem a idx = Ok row ->
  t_shape a = n_samples a :: t_shape row /\
  t_dtype row = t_dtype a /\
  - Z.of_nat (n_samples a) <= idx < Z.of_nat (n_samples a).
Proof.
  unfold getitem, n_samples. destruct (t_shape a) as [|d sh]; [done|].
  destruct (Z.leb_spec (- Z.of_nat d) idx); [|done].
  destruct (Z.ltb_spec idx (Z.of_nat d)); [|done].
  cbn. intros [= <-]. cbn. repeat split; lia.
Qed.

Lemma to_shape d t : t_shape (to d t) = t_shape t.
Proof. unfold to. by destruct (dtype_eqb (t_dtype t) d). Qed.

Lemma to_same t : to (t_dtype t) t = t.
Proof. unfold to. by destruct (t_dtype t). Qed.

(** A field that loads is an array of at least two dimensions that has the
    row asked for; the result is that row as float32. *)
Lemma load_float32_ok src key idx t :
  load_float32 src key idx = Ok t ->
  exists a row,
    src !! key = Some a /\ getitem a idx = Ok row /\
    t_shape row <> [] /\ t = to float32 row.
Proof.
  unfold load_float32, subscript. intros H.
  destruct (src !! key) as [a|]; [|done]. cbn [result_bind] in H.
  apply result_bind_ok in H as (row & Hrow & H).
  apply result_bind_ok in H as (t' & Ht' & H).
  exists a, row. unfold from_numpy in Ht'.
  destruct (t_shape row) eqn:Hs; by simplify_eq.
Qed.

End Shapes.

(** X2.  An optional field must hold an array per sample.  When
    [time_points], [for_pattern_mask] or [cut_length] is in the source with
    fewer than two dimensions (one number per sample, say), no fetch returns
    a sample, in either mode. *)
Theorem flat_optional_field_fails {rng : Type} (mcar : masker rng)
    (open_file : string -> result h5file) (mode : storage_mode) (idx : Z)
    (w : world rng) src key a :
  source_of open_file mode (self w) = Ok src ->
  key ∈ optional_keys ->
  src !! key = Some a ->
  (length (t_shape a) < 2)%nat ->
  forall s, (fetch_data mcar open_file mode idx w).1 <> Ok s.
Proof.
  intros Hsrc Hkey Ha Hrank s Hs.
  destruct (fetch_data mcar open_file mode idx w) as [r w'] eqn:H.
  cbn in Hs. subst r.
  apply fetch_data_ok in H
    as (X0 & Xi & src' & om & tp & fpm & cl & lbl & H).
  cbn zeta in H.
  destruct H as (_ & _ & Hsrc' & _ & Htp & Hfpm & Hcl & _).
  rewrite Hsrc in Hsrc'. simplify_eq.
  assert (exists default t, optional_field src' key idx default = Ok t)
    as (default & t & Ht).
  { unfold optional_keys in Hkey.
    repeat (apply elem_of_cons in Hkey as [-> | Hkey]; [by eauto|]).
    by apply elem_of_nil in Hkey. }
  rewrite (optional_field_present _ _ _ _ _ Ha) in Ht.
  apply load_float32_ok in Ht as (a' & row & Ha' & Hrow & Hne & _).
  rewrite Ha in Ha'. simplify_eq.
  apply getitem_shape in Hrow as (Hshape & _ & _).
  rewrite Hshape in Hrank. destruct (t_shape row); [done|cbn in Hrank; lia].
Qed.

Lemma flat_optional_field_fails_witness :
  (fetch_data mcar_draws demo_fs InMemory 0
     (World demo_array_cut_flat demo_draws)).1 = Raise TypeError /\
  forall s,
    (fetch_data mcar_draws demo_fs InMemory 0
       (World demo_array_cut_flat demo_draws)).1 <> Ok s.
Proof.
  split; [vm_compute; reflexivity|].
  apply (flat_optional_field_fails mcar_draws demo_fs InMemory 0
           (World demo_array_cut_flat demo_draws)
           {[ "X" := demo_X; "cut_length" := demo_cut_flat ]}
           "cut_length" demo_cut_flat);
    [ reflexivity | unfold optional_keys; repeat constructor
    | vm_compute; reflexivity | cbn; lia ].
Defined.

(** X3.  The series themselves must be arrays too.  With a one-dimensional
    [X] (one number per sample) the file-backed method never returns a
    sample, and neither does the in-memory method when the source has no
    [cut_length] field and the masker keeps the shape of its input: the
    length of a 0-dimensional [observed_data] cannot be taken. *)
Theorem flat_series_fail {rng : Type} (mcar : masker rng)
    (open_file : string -> result h5file) (mode : storage_mode) (idx : Z)
    (w : world rng) X0 src :
  data_X open_file mode (self w) = Ok X0 ->
  (length (t_shape X0) < 2)%nat ->
  source_of open_file mode (self w) = Ok src ->
  (mode = InMemory ->
   src !! "cut_length" = None /\
   forall x, t_shape (X_intact_of (mcar x (rate (self w)) (rnd w)).1)
             = t_shape x) ->
  forall s, (fetch_data mcar open_file mode idx w).1 <> Ok s.
Proof.
  intros HX Hrank Hsrc Hmem s Hs.
  destruct (fetch_data mcar open_file mode idx w) as [r w'] eqn:H.
  cbn in Hs. subst r.
  assert (forall Xi, getitem X0 idx = Ok Xi -> t_shape Xi = []) as Hrow.
  { intros Xi HXi. apply getitem_shape in HXi as (Hshape & _ & _).
    rewrite Hshape in Hrank. destruct (t_shape Xi); [done|cbn in Hrank; lia]. }
  destruct mode.
  - destruct (Hmem eq_refl) as [Hcut Hkeep].
    apply fetch_data_ok in H
      as (X0' & Xi & src' & om & tp & fpm & cl & lbl & H).
    cbn zeta in H. destruct H as (HX' & HXi & Hsrc' & _ & _ & _ & Hcl & _).
    rewrite HX in HX'. rewrite Hsrc in Hsrc'. simplify_eq.
    rewrite optional_field_absent in Hcl by done.
    unfold zeros_long, len in Hcl.
    by rewrite Hkeep, to_shape, (Hrow _ HXi) in Hcl.
  - cbn [fetch_data data_X] in *. rewrite fetch_file_eq in H.
    destruct (handle_for open_file (self w)) as [h|]; [|done].
    cbn [result_bind] in HX. cbn zeta in H. rewrite HX in H.
    cbn [result_bind] in H.
    destruct (getitem X0 idx) as [Xi|] eqn:HXi; [|done].
    cbn [result_bind] in H. unfold from_numpy in H.
    by rewrite (Hrow _ eq_refl) in H.
Qed.

Lemma flat_series_fail_witness :
  (fetch_data mcar_draws demo_fs InMemory 0
     (World demo_array_flat demo_draws)).1 = Raise TypeError /\
  forall s,
    (fetch_data mcar_draws demo_fs InMemory 0
       (World demo_array_flat demo_draws)).1 <> Ok s.
Proof.
  split; [vm_compute; reflexivity|].
  apply (flat_series_fail mcar_draws demo_fs InMemory 0
           (World demo_array_flat demo_draws) demo_X_flat
           {[ "X" := demo_X_flat ]});
    [ reflexivity | cbn; lia | reflexivity | ].
  intros _. split; [vm_compute; reflexivity | intros x; reflexivity].
Defined.

(** ** Failures and the state they leave *)

(** X4.  A file without ["X"] makes the file-backed method raise
    [KeyError].  The file has been opened by then: the handle stays in the
    object, and the random generator has not been used. *)
Theorem fetch_file_without_X {rng : Type} (mcar : masker rng)
    (open_file : string -> result h5file) (idx : Z) (w : world rng) h :
  handle_for open_file (self w) = Ok h ->
  h5_items h !! "X" = None ->
  _fetch_data_from_file rng mcar open_file idx w
  = (Raise KeyError, World (with_handle h (self w)) (rnd w)) /\
  file_handle (with_handle h (self w)) = Some h.
Proof.
  intros Hh HX. split.
  - rewrite fetch_file_eq, Hh. cbn zeta. unfold subscript. by rewrite HX.
  - unfold handle_for, with_handle in *.
    destruct (file_handle (self w)) as [h'|] eqn:Hfh; [|done].
    rewrite Hfh. congruence.
Qed.

Lemma fetch_file_without_X_witness :
  _fetch_data_from_file _ mcar_draws demo_fs_more 0
    (World demo_file_labels demo_draws)
  = (Raise KeyError,
     World (set_file_handle demo_h5_labels demo_file_labels) demo_draws).
Proof.
  apply (fetch_file_without_X mcar_draws demo_fs_more 0
           (World demo_file_labels demo_draws) demo_h5_labels);
    [reflexivity | vm_compute; reflexivity].
Defined.

(** X5.  The masker runs once per fetch, after the row has been read.  A
    fetch that cannot read its row raises what reading it raised and leaves
    the random generator as it was;
    once the row is read, the generator is left where the one call of the
    masker put it, whether or not the rest of the fetch succeeds. *)
Theorem fetch_randomness {rng : Type} (mcar : masker rng)
    (open_file : string -> result h5file) (mode : storage_mode) (idx : Z)
    (w : world rng) X0 :
  data_X open_file mode (self w) = Ok X0 ->
  match read_row mode X0 idx with
  | Raise e =>
      fetch_data mcar open_file mode idx w
      = (Raise e, World (after_fetch open_file mode (self w)) (rnd w))
  | Ok Xi =>
      (mode = FileBacked -> t_shape Xi <> []) ->
      rnd (fetch_data mcar open_file mode idx w).2
      = (mcar (to float32 Xi) (rate (self w)) (rnd w)).2
  end.
Proof.
  intros HX. destruct mode; cbn [fetch_data data_X after_fetch read_row] in *.
  - rewrite fetch_array_eq.
    destruct (X (self w)) as [X0'|]; [|done]. simplify_eq.
    destruct (tensor_getitem X0 idx) as [Xi|e]; [done|by destruct w].
  - rewrite fetch_file_eq.
    destruct (handle_for open_file (self w)) as [h|]; [|done].
    cbn [result_bind] in HX. cbn zeta. rewrite HX. cbn [result_bind].
    destruct (getitem X0 idx) as [Xi|e]; [|done]. cbn [result_bind].
    intros Hne. unfold from_numpy.
    destruct (t_shape Xi); [by destruct Hne|done].
Qed.

Lemma fetch_randomness_witness :
  rnd (fetch_data mcar_draws demo_fs InMemory 2
         (World demo_array demo_draws)).2 = demo_draws /\
  rnd (fetch_data mcar_draws demo_fs FileBacked 1
         (World demo_file demo_draws)).2 = tl demo_draws /\
  rnd (fetch_data mcar_draws demo_fs InMemory 0
         (World demo_array_cut_flat demo_draws)).2 = tl demo_draws.
Proof.
  split; [|split].
  - pose proof (fetch_randomness mcar_draws demo_fs InMemory 2
                  (World demo_array demo_draws) demo_X eq_refl) as H.
    vm_compute (read_row InMemory demo_X 2) in H.
    cbv beta iota in H. by rewrite H.
  - pose proof (fetch_randomness mcar_draws demo_fs FileBacked 1
                  (World demo_file demo_draws) demo_X eq_refl) as H.
    vm_compute (read_row FileBacked demo_X 1) in H. cbv beta iota in H.
    rewrite H; [reflexivity | discriminate].
  - pose proof (fetch_randomness mcar_draws demo_fs InMemory 0
                  (World demo_array_cut_flat demo_draws) demo_X eq_refl) as H.
    vm_compute (read_row InMemory demo_X 0) in H. cbv beta iota in H.
    rewrite H; [reflexivity | discriminate].
Defined.

(** ** What a fetch reads *)

Section Reads.

Lemma optional_field_ext (d1 d2 : gmap string tensor) key idx default :
  d1 !! key = d2 !! key ->
  optional_field d1 key idx default = optional_field d2 key idx default.
Proof.
  intros H. unfold optional_field, has_key, load_float32, subscript.
  by rewrite H.
Qed.

Lemma assemble_ext (d1 d2 : gmap string tensor) steps idx out gt lbl :
  (forall key, key ∈ optional_keys -> d1 !! key = d2 !! key) ->
  assemble (Ok d1) steps idx out gt lbl = assemble (Ok d2) steps idx out gt lbl.
Proof.
  intros H. unfold assemble. cbn [result_bind].
  rewrite !(optional_field_ext d1 d2)
    by (apply H; unfold optional_keys; repeat constructor).
  done.
Qed.

Lemma file_label_ext (f1 f2 : gmap string tensor) ds idx :
  (return_labels ds = true -> f1 !! "y" = f2 !! "y") ->
  file_label f1 ds idx = file_label f2 ds idx.
Proof.
  intros H. unfold file_label, has_key, subscript.
  destruct (return_labels ds); [|by rewrite !andb_false_r].
  by rewrite (H eq_refl).
Qed.

End Reads.

(** X6.  The in-memory method takes the series from [self.X] and the labels
    from [self.y]; in [self.data] it looks at the three optional keys only.
    Two datasets that agree on [X], the settings, those three entries and,
    when labels are asked for, [y], give the same outcome, whatever else
    their dicts hold (other entries under ["X"] or ["y"] included). *)
Theorem array_fetch_reads {rng : Type} (mcar : masker rng) (idx : Z)
    (ds1 ds2 : DatasetForCSDI) (g : rng) d1 d2 :
  data ds1 = DataDict d1 ->
  data ds2 = DataDict d2 ->
  (forall key, key ∈ optional_keys -> d1 !! key = d2 !! key) ->
  X ds1 = X ds2 ->
  rate ds1 = rate ds2 ->
  n_steps ds1 = n_steps ds2 ->
  return_labels ds1 = return_labels ds2 ->
  (return_labels ds1 = true -> y ds1 = y ds2) ->
  (_fetch_data_from_array rng mcar idx (World ds1 g)).1
  = (_fetch_data_from_array rng mcar idx (World ds2 g)).1.
Proof.
  intros Hd1 Hd2 Hkeys HX Hrate Hsteps Hrl Hy.
  rewrite !fetch_array_eq. cbn [self rnd]. rewrite <- HX, <- Hrate, <- Hsteps.
  destruct (X ds1) as [X0|]; [|done].
  destruct (tensor_getitem X0 idx) as [Xi|]; [|done]. cbn zeta. cbn [fst].
  unfold array_source. rewrite Hd1, Hd2.
  rewrite (assemble_ext d1 d2) by done. f_equal.
  unfold array_label. rewrite <- Hrl.
  destruct (return_labels ds1); [by rewrite (Hy eq_refl)|].
  by destruct (y ds1), (y ds2).
Qed.

Lemma array_fetch_reads_witness :
  (_fetch_data_from_array _ mcar_draws 1 (World demo_array demo_draws)).1
  = (_fetch_data_from_array _ mcar_draws 1
       (World demo_array_other demo_draws)).1.
Proof.
  apply (array_fetch_reads mcar_draws 1 demo_array demo_array_other demo_draws
           {[ "X" := demo_X; "y" := demo_y ]} demo_other_items);
    try reflexivity.
  intros key Hkey. unfold optional_keys in Hkey.
  repeat (apply elem_of_cons in Hkey as [-> | Hkey];
          [vm_compute; reflexivity|]).
  by apply elem_of_nil in Hkey.
Defined.

(** X7.  The file-backed method looks in the file at ["X"], the three
    optional keys and, when labels are asked for, ["y"].  Two files that
    agree on those give the same outcome. *)
Theorem file_fetch_reads {rng : Type} (mcar : masker rng)
    (open1 open2 : string -> result h5file) (idx : Z)
    (ds : DatasetForCSDI) (g : rng) h1 h2 :
  handle_for open1 ds = Ok h1 ->
  handle_for open2 ds = Ok h2 ->
  h5_items h1 !! "X" = h5_items h2 !! "X" ->
  (forall key, key ∈ optional_keys ->
               h5_items h1 !! key = h5_items h2 !! key) ->
  (return_labels ds = true -> h5_items h1 !! "y" = h5_items h2 !! "y") ->
  (_fetch_data_from_file rng mcar open1 idx (World ds g)).1
  = (_fetch_data_from_file rng mcar open2 idx (World ds g)).1.
Proof.
  intros Hh1 Hh2 HX Hkeys Hy.
  rewrite !fetch_file_eq. cbn [self rnd]. rewrite Hh1, Hh2. cbn zeta.
  unfold subscript. rewrite HX.
  destruct (h5_items h2 !! "X") as [X0|]; [|done]. cbn [result_bind].
  destruct (getitem X0 idx) as [Xi|]; [|done]. cbn [result_bind].
  destruct (from_numpy Xi) as [X1|]; [|done]. cbn [fst].
  rewrite (assemble_ext (h5_items h1) (h5_items h2)) by done.
  by rewrite (file_label_ext (h5_items h1) (h5_items h2)).
Qed.

Lemma file_fetch_reads_witness :
  (_fetch_data_from_file _ mcar_draws demo_fs 1
     (World demo_file demo_draws)).1
  = (_fetch_data_from_file _ mcar_draws demo_fs_extra 1
       (World demo_file demo_draws)).1.
Proof.
  apply (file_fetch_reads mcar_draws demo_fs demo_fs_extra 1 demo_file
           demo_draws demo_h5 demo_h5_extra);
    try reflexivity.
  intros key Hkey. unfold optional_keys in Hkey.
  repeat (apply elem_of_cons in Hkey as [-> | Hkey];
          [vm_compute; reflexivity|]).
  by apply elem_of_nil in Hkey.
Defined.

(** X8.  The masker only ever sees a float32 tensor and the rate of the
    dataset: two maskers that agree on float32 input at that rate give the
    same outcome, in both modes. *)
Theorem masker_sees_float32 {rng : Type} (mcar1 mcar2 : masker rng)
    (open_file : string -> result h5file) (mode : storage_mode) (idx : Z)
    (w : world rng) :
  (forall x g, t_dtype x = float32 ->
               mcar1 x (rate (self w)) g = mcar2 x (rate (self w)) g) ->
  fetch_data mcar1 open_file mode idx w = fetch_data mcar2 open_file mode idx w.
Proof.
  intros Hagree. destruct mode; cbn [fetch_data].
  - rewrite !fetch_array_eq.
    destruct (X (self w)) as [X0|]; [|done].
    destruct (tensor_getitem X0 idx) as [Xi|]; [|done].
    by rewrite Hagree by apply to_dtype.
  - rewrite !fetch_file_eq.
    destruct (handle_for open_file (self w)) as [h|]; [|done]. cbn zeta.
    destruct (result_bind _ _) as [X1|]; [|done].
    by rewrite Hagree by apply to_dtype.
Qed.

Lemma masker_sees_float32_witness :
  mcar_draws demo_y demo_rate demo_draws
  <> mcar_draws_float32 demo_y demo_rate demo_draws /\
  fetch_data mcar_draws demo_fs InMemory 0 (World demo_array demo_draws)
  = fetch_data mcar_draws_float32 demo_fs InMemory 0
      (World demo_array demo_draws) /\
  fetch_data mcar_draws demo_fs FileBacked 1 (World demo_file demo_draws)
  = fetch_data mcar_draws_float32 demo_fs FileBacked 1
      (World demo_file demo_draws).
Proof.
  split; [vm_compute; discriminate|].
  split.
  - apply (masker_sees_float32 mcar_draws mcar_draws_float32 demo_fs InMemory
             0 (World demo_array demo_draws)).
    intros x g Hx. unfold mcar_draws_float32. rewrite Hx. reflexivity.
  - apply (masker_sees_float32 mcar_draws mcar_draws_float32 demo_fs
             FileBacked 1 (World demo_file demo_draws)).
    intros x g Hx. unfold mcar_draws_float32. rewrite Hx. reflexivity.
Defined.

(** ** The two modes on the same data *)

Section SameData.

Lemma label_modes (f : gmap string tensor) ds_a ds_f idx lbl :
  y ds_a = f !! "y" ->
  return_labels ds_a = return_labels ds_f ->
  (return_labels ds_a = true ->
   forall y0, y ds_a = Some y0 -> t_dtype y0 = int64) ->
  array_label ds_a idx = Ok lbl ->
  file_label f ds_f idx = Ok lbl.
Proof.
  intros Hy Hrl Hint. unfold file_label, array_label, has_key, subscript.
  rewrite <- Hy, <- Hrl. destruct (y ds_a) as [y0|].
  - rewrite bool_decide_eq_true_2 by done. cbn.
    destruct (return_labels ds_a); [|done]. intros H.
    apply result_bind_ok in H as (yi & Hyi & H).
    apply tensor_getitem_ok in Hyi as [Hyi _]. rewrite Hyi. cbn.
    assert (t_dtype yi = int64) as Hdt.
    { rewrite (getitem_dtype _ _ _ Hyi). by apply Hint. }
    rewrite (tensor_long_int64 _ Hdt). cbn. simplify_eq.
    by rewrite <- Hdt, to_same_dtype.
  - rewrite bool_decide_eq_false_2; [done|]. by intros [? ?].
Qed.

End SameData.

(** X9.  On the same data the two modes build the same sample but for
    [gt_mask].  Let a file hold under ["X"], the optional keys and ["y"]
    what an in-memory dataset has in [self.X], its dict and [self.y], with
    the same settings, series of at least one dimension, labels (when they
    are asked for) stored as int64, and the random generator in the same
    state.  When the in-memory method returns a
    sample, so does the file-backed one; they leave the generator in the
    same state, and the samples agree everywhere except on [gt_mask]
    ([missing_mask] against [indicating_mask]) and, when the source has no
    [for_pattern_mask] field, on [for_pattern_mask], which follows it. *)
Theorem modes_agree {rng : Type} (mcar : masker rng)
    (open_file : string -> result h5file) (idx : Z)
    (ds_a ds_f : DatasetForCSDI) (g : rng) X0 Xi d h out g' sa wa :
  X ds_a = Some X0 ->
  data ds_a = DataDict d ->
  handle_for open_file ds_f = Ok h ->
  h5_items h !! "X" = Some X0 ->
  (forall key, key ∈ optional_keys -> d !! key = h5_items h !! key) ->
  y ds_a = h5_items h !! "y" ->
  rate ds_a = rate ds_f ->
  n_steps ds_a = n_steps ds_f ->
  return_labels ds_a = return_labels ds_f ->
  (return_labels ds_a = true ->
   forall y0, y ds_a = Some y0 -> t_dtype y0 = int64) ->
  getitem X0 idx = Ok Xi ->
  t_shape Xi <> [] ->
  mcar (to float32 Xi) (rate ds_a) g = (out, g') ->
  _fetch_data_from_array rng mcar idx (World ds_a g) = (Ok sa, wa) ->
  exists sf,
    _fetch_data_from_file rng mcar open_file idx (World ds_f g)
    = (Ok sf, World (with_handle h ds_f) (rnd wa)) /\
    length sf = length sa /\
    take 4 sf = take 4 sa /\
    drop 6 sf = drop 6 sa /\
    sa !! pos_gt_mask = Some (missing_mask_of out) /\
    sf !! pos_gt_mask = Some (indicating_mask_of out) /\
    (is_Some (d !! "for_pattern_mask") ->
     sf !! pos_for_pattern_mask = sa !! pos_for_pattern_mask) /\
    (d !! "for_pattern_mask" = None ->
     sa !! pos_for_pattern_mask = Some (missing_mask_of out) /\
     sf !! pos_for_pattern_mask = Some (indicating_mask_of out)).
Proof.
  intros HX Hd Hh HfX Hkeys Hy Hrate Hsteps Hrl Hint HXi Hne Hm H.
  rewrite fetch_array_eq in H. cbn [self rnd] in H.
  rewrite HX in H.
  destruct (tensor_getitem X0 idx) as [Xi'|] eqn:HXi'; [|done].
  apply tensor_getitem_ok in HXi' as [HXi' _].
  assert (Xi' = Xi) as -> by congruence. clear HXi'.
  cbn zeta in H. rewrite Hm in H. cbn [fst snd] in H.
  unfold array_source in H. rewrite Hd in H.
  destruct (assemble _ _ _ _ _ _) as [s|] eqn:Hs; [|done]. simplify_eq.
  apply assemble_ok in Hs
    as (om & d' & tp & fpm & cl & lbl & Hom & Hd' & Htp & Hfpm & Hcl & Hi
        & Hlbl & ->).
  simplify_eq.
  rewrite fetch_file_eq. cbn [self rnd]. rewrite Hh. cbn zeta.
  unfold subscript. rewrite HfX. cbn [result_bind]. rewrite HXi.
  cbn [result_bind]. unfold from_numpy.
  destruct (t_shape Xi) eqn:Hshape; [done|].
  rewrite <- Hrate, Hm. cbn [fst snd].
  rewrite <- (assemble_ext d' (h5_items h)) by done.
  rewrite (label_modes (h5_items h) ds_a ds_f idx lbl Hy Hrl Hint Hlbl).
  unfold assemble. rewrite Hom. cbn [result_bind].
  rewrite <- Hsteps, Htp. cbn [result_bind].
  destruct (d' !! "for_pattern_mask") as [a|] eqn:Ha.
  - rewrite (optional_field_present _ _ _ _ _ Ha) in Hfpm.
    rewrite (optional_field_present _ _ _ _ _ Ha), Hfpm.
    cbn [result_bind]. rewrite Hcl. cbn [result_bind].
    rewrite Hi. cbn [result_bind].
    eexists. split; [reflexivity|]. cbn.
    repeat split; solve [done | by f_equal].
  - rewrite optional_field_absent in Hfpm by done.
    rewrite optional_field_absent by done. simplify_eq.
    cbn [result_bind]. rewrite Hcl. cbn [result_bind].
    rewrite Hi. cbn [result_bind].
    eexists. split; [reflexivity|]. cbn.
    repeat split; solve [done | by f_equal | by intros [? ?]].
Qed.

Lemma modes_agree_witness :
  exists sa sf,
    (_fetch_data_from_array _ mcar_draws 1
       (World demo_array_full demo_draws)).1 = Ok sa /\
    (_fetch_data_from_file _ mcar_draws demo_fs_more 1
       (World demo_file_full demo_draws)).1 = Ok sf /\
    take 4 sf = take 4 sa /\ drop 6 sf = drop 6 sa /\
    sf !! pos_for_pattern_mask = sa !! pos_for_pattern_mask /\
    sa !! pos_gt_mask <> sf !! pos_gt_mask.
Proof.
  edestruct (modes_agree mcar_draws demo_fs_more 1 demo_array_full
               demo_file_full demo_draws demo_X)
    as (sf & Hsf & _ & Htake & Hdrop & Hgta & Hgtf & Hfpm & _);
    [ reflexivity | reflexivity | reflexivity | vm_compute; reflexivity
    | | reflexivity | reflexivity | reflexivity | reflexivity
    | | reflexivity | discriminate | reflexivity | vm_compute; reflexivity | ].
  { intros key Hkey. reflexivity. }
  { intros _ y0 Hy0. cbn in Hy0. injection Hy0 as <-. reflexivity. }
  eexists _, sf. split; [vm_compute; reflexivity|].
  split; [by rewrite Hsf|]. split; [exact Htake|]. split; [exact Hdrop|].
  split.
  - apply Hfpm. vm_compute. eexists. reflexivity.
  - rewrite Hgta, Hgtf. vm_compute. discriminate.
Defined.

(** ** Optional fields that are there *)

(** X10.  An optional field of the source is used as stored.  When the
    source has [time_points], [for_pattern_mask] or [cut_length], the
    sample holds at that position row [idx] of the stored array cast to
    float32: the row itself when the array is float32 already.  Neither
    [n_steps] nor the masker has a say. *)
Theorem optional_field_row {rng : Type} (mcar : masker rng)
    (open_file : string -> result h5file) (mode : storage_mode) (idx : Z)
    (w : world rng) src key a s w' :
  source_of open_file mode (self w) = Ok src ->
  key ∈ optional_keys ->
  src !! key = Some a ->
  fetch_data mcar open_file mode idx w = (Ok s, w') ->
  exists row,
    getitem a idx = Ok row /\
    s !! pos_of_key key = Some (to float32 row) /\
    t_dtype (to float32 row) = float32 /\
    t_shape a = n_samples a :: t_shape (to float32 row) /\
    (t_dtype a = float32 -> to float32 row = row).
Proof.
  intros Hsrc Hkey Ha H.
  apply fetch_data_ok in H
    as (X0 & Xi & src' & om & tp & fpm & cl & lbl & H).
  cbn zeta in H.
  destruct H as (_ & _ & Hsrc' & _ & Htp & Hfpm & Hcl & _ & -> & _).
  rewrite Hsrc in Hsrc'. simplify_eq.
  assert (exists t, load_float32 src' key idx = Ok t /\
                    ([Tensor int64 [] [I idx];
                      X_intact_of
                        (mcar (to float32 Xi) (rate (self w)) (rnd w)).1;
                      om; tp;
                      gt_mask_of mode
                        (mcar (to float32 Xi) (rate (self w)) (rnd w)).1;
                      fpm; cl] ++ lbl) !! pos_of_key key = Some t)
    as (t & Ht & Hpos).
  { unfold optional_keys in Hkey.
    repeat (apply elem_of_cons in Hkey as [-> | Hkey];
            [rewrite (optional_field_present _ _ _ _ _ Ha) in *; by eauto|]).
    by apply elem_of_nil in Hkey. }
  apply load_float32_ok in Ht as (a' & row & Ha' & Hrow & _ & ->).
  rewrite Ha in Ha'. simplify_eq.
  exists row. split; [done|]. split; [done|]. split; [apply to_dtype|].
  apply getitem_shape in Hrow as (Hshape & Hdt & _).
  split; [by rewrite to_shape|].
  intros Hf. rewrite <- Hdt in Hf. rewrite <- Hf. apply to_same.
Qed.

Lemma optional_field_row_witness :
  exists s,
    (fetch_data mcar_draws demo_fs_more FileBacked 1
       (World demo_file_full demo_draws)).1 = Ok s /\
    s !! pos_time_points = Some (Tensor float32 [3%nat] [f32 1; f32 2; f32 4]) /\
    s !! pos_for_pattern_mask =
      Some (Tensor float32 [3; 2]%nat
              [f32 1; f32 1; f32 0; f32 0; f32 1; f32 1]).
Proof.
  eexists. split; [vm_compute; reflexivity|]. split.
  - edestruct (optional_field_row mcar_draws demo_fs_more FileBacked 1
                 (World demo_file_full demo_draws) demo_full_items
                 "time_points" demo_time_points)
      as (row & Hrow & Hs & _);
      [ reflexivity | unfold optional_keys; repeat constructor
      | vm_compute; reflexivity | vm_compute; reflexivity | ].
    change (pos_of_key "time_points") with pos_time_points in Hs.
    rewrite Hs. vm_compute in Hrow. injection Hrow as <-.
    vm_compute. reflexivity.
  - edestruct (optional_field_row mcar_draws demo_fs_more FileBacked 1
                 (World demo_file_full demo_draws) demo_full_items
                 "for_pattern_mask" demo_pattern)
      as (row & Hrow & Hs & _ & _ & Hsame);
      [ reflexivity | unfold optional_keys; repeat constructor
      | vm_compute; reflexivity | vm_compute; reflexivity | ].
    change (pos_of_key "for_pattern_mask") with pos_for_pattern_mask in Hs.
    rewrite Hs, (Hsame eq_refl). vm_compute in Hrow. injection Hrow as <-.
    vm_compute. reflexivity.
Defined.

(** ** Indices below the range *)

(** X11.  An index below [-n], for a dataset of [n] samples, and above
    [- 2 ^ 63], raises [IndexError] in both modes, like one at or past [n];
    the random generator is not used. *)
Theorem fetch_below_range {rng : Type} (mcar : masker rng)
    (open_file : string -> result h5file) (mode : storage_mode) (idx : Z)
    (w : world rng) X0 :
  data_X open_file mode (self w) = Ok X0 ->
  int64_min < idx < - Z.of_nat (n_samples X0) ->
  fetch_data mcar open_file mode idx w
  = (Raise IndexError, World (after_fetch open_file mode (self w)) (rnd w)).
Proof.
  intros HX [Hmin Hidx].
  assert (getitem X0 idx = Raise IndexError) as Hget.
  { unfold getitem, n_samples in *. destruct (t_shape X0) as [|d sh]; [done|].
    by destruct (Z.leb_spec (- Z.of_nat d) idx); [lia|]. }
  apply fetch_data_none with X0; [done|].
  destruct mode; cbn [read_row]; [|done].
  rewrite tensor_getitem_int64; [done|]. unfold int64_max. lia.
Qed.

Lemma fetch_below_range_witness :
  fetch_data mcar_draws demo_fs InMemory (-3) (World demo_array demo_draws)
  = (Raise IndexError, World demo_array demo_draws) /\
  fetch_data mcar_draws demo_fs FileBacked (-3) (World demo_file demo_draws)
  = (Raise IndexError,
     World (set_file_handle demo_h5 demo_file) demo_draws).
Proof.
  split.
  - apply (fetch_below_range mcar_draws demo_fs InMemory (-3)
             (World demo_array demo_draws) demo_X);
      [reflexivity | vm_compute; split; reflexivity].
  - apply (fetch_below_range mcar_draws demo_fs FileBacked (-3)
             (World demo_file demo_draws) demo_X);
      [reflexivity | vm_compute; split; reflexivity].
Defined.

(** ** Opening the file *)

(** X12.  When the handle is unset and the file cannot be opened, the
    file-backed method raises the error of the opening and nothing has
    changed: the handle is still unset, so that the next fetch tries again,
    and the random generator has not been used. *)
Theorem fetch_file_open_fails {rng : Type} (mcar : masker rng)
    (open_file : string -> result h5file) (idx : Z) (w : world rng) p e :
  file_handle (self w) = None ->
  data (self w) = DataPath p ->
  open_file p = Raise e ->
  _fetch_data_from_file rng mcar open_file idx w = (Raise e, w).
Proof.
  intros Hfh Hp He. rewrite fetch_file_eq. unfold handle_for.
  by rewrite Hfh, Hp, He.
Qed.

Lemma fetch_file_open_fails_witness :
  _fetch_data_from_file _ mcar_draws demo_fs_extra 0
    (World demo_file_full demo_draws)
  = (Raise OSError, World demo_file_full demo_draws).
Proof.
  apply (fetch_file_open_fails mcar_draws demo_fs_extra 0
           (World demo_file_full demo_draws) "full.h5" OSError);
    reflexivity.
Defined.

(** X13.  Once the handle is set the file is not opened again: what the
    file-backed method does no longer depends on the file system. *)
Theorem fetch_file_no_reopen {rng : Type} (mcar : masker rng)
    (open1 open2 : string -> result h5file) (idx : Z) (w : world rng) h :
  file_handle (self w) = Some h ->
  _fetch_data_from_file rng mcar open1 idx w
  = _fetch_data_from_file rng mcar open2 idx w.
Proof.
  intros Hfh. rewrite !fetch_file_eq. unfold handle_for. by rewrite Hfh.
Qed.

Lemma fetch_file_no_reopen_witness :
  exists s,
    _fetch_data_from_file _ mcar_draws demo_fs 1
      (World (set_file_handle demo_h5 demo_file) demo_draws)
    = (Ok s, World (set_file_handle demo_h5 demo_file) (tl demo_draws)) /\
    _fetch_data_from_file _ mcar_draws (fun _ => Raise OSError) 1
      (World (set_file_handle demo_h5 demo_file) demo_draws)
    = (Ok s, World (set_file_handle demo_h5 demo_file) (tl demo_draws)).
Proof.
  eexists. split; [vm_compute; reflexivity|].
  rewrite <- (fetch_file_no_reopen mcar_draws demo_fs (fun _ => Raise OSError)
                1 (World (set_file_handle demo_h5 demo_file) demo_draws)
                demo_h5 eq_refl).
  vm_compute. reflexivity.
Defined.
